(** * PowerGuard: anomaly-scoring engine and risk display

    Shallow embedding of the PowerGuard risk pipeline.  The React frontend
    (the DataTable, StatCard and ThemeContext components, the API client,
    the data hooks and the Dashboard, RiskTable, Upload and Analytics pages)
    is embedded from its source; the scoring engine (feature extraction, detectors,
    normalisation, classification, orchestration, result store) is backend
    code of the project that is not part of the sources at hand, so those
    definitions are modelled from the engine's specification and say so in
    their doc comments.  Scores are exact rationals [Q]. *)

From Stdlib Require Import QArith Qminmax Qfield Qround Lqa List String Bool Lia ZArith.
Import ListNotations.
Open Scope string_scope.

(* ------------------------------------------------------------------------- *)
(** ** RiskBadge (frontend/src/components/DataTable.jsx) *)

Module RiskBadge.

(** JavaScript values that may reach the [level] prop. *)
Inductive js_value :=
| JsUndefined
| JsNull
| JsBool (b : bool)
| JsString (s : string).

(** ToPropertyKey: the string used to index an object with [obj[v]]. *)
Definition to_property_key (v : js_value) : string :=
  match v with
  | JsUndefined => "undefined"
  | JsNull => "null"
  | JsBool true => "true"
  | JsBool false => "false"
  | JsString s => s
  end.

(** One entry of the [levels] object literal. *)
Record level_config := { label : string; klass : string }.

(** The [levels] object literal of [RiskBadge], own properties in order. *)
Definition levels : list (string * level_config) :=
  [ ("critical", {| label := "Critical"; klass := "badge-danger" |});
    ("high",     {| label := "High";     klass := "badge-danger" |});
    ("medium",   {| label := "Medium";   klass := "badge-warning" |});
    ("low",      {| label := "Low";      klass := "badge-success" |}) ].

(** Properties every object literal inherits from [Object.prototype]. *)
Definition object_prototype_props : list string :=
  [ "constructor"; "__defineGetter__"; "__defineSetter__"; "hasOwnProperty";
    "__lookupGetter__"; "__lookupSetter__"; "isPrototypeOf";
    "propertyIsEnumerable"; "toString"; "valueOf"; "__proto__";
    "toLocaleString" ].

(** Result of a property read [levels[k]]: an own entry, an inherited
    member of [Object.prototype] (a function, or the prototype object for
    [__proto__]), or [undefined]. *)
Inductive prop_value :=
| Own (c : level_config)
| Inherited (name : string)
| Undefined.

Fixpoint own_lookup (k : string) (o : list (string * level_config))
  : option level_config :=
  match o with
  | [] => None
  | (k', c) :: o' => if String.eqb k k' then Some c else own_lookup k o'
  end.

Definition get (k : string) : prop_value :=
  match own_lookup k levels with
  | Some c => Own c
  | None =>
      if existsb (String.eqb k) object_prototype_props then Inherited k
      else Undefined
  end.

(** JavaScript truthiness of a property value: objects and functions are
    truthy, [undefined] is falsy. *)
Definition truthy (p : prop_value) : bool :=
  match p with
  | Undefined => false
  | _ => true
  end.

(** [levels[level] || levels.low] *)
Definition config_of (level : js_value) : prop_value :=
  let p := get (to_property_key level) in
  if truthy p then p else get "low".

(** What the component renders: the [className] and the text child
    ([None] when [config.label] is [undefined], which React renders as
    nothing). *)
Record badge := { badge_class : string; badge_label : option string }.

(** [`badge ${config.class}`] and [{config.label}]; a member inherited from
    [Object.prototype] has neither [class] nor [label]. *)
Definition render (p : prop_value) : badge :=
  match p with
  | Own c => {| badge_class := "badge " ++ klass c; badge_label := Some (label c) |}
  | Inherited _ | Undefined =>
      {| badge_class := "badge undefined"; badge_label := None |}
  end.

Definition RiskBadge (level : js_value) : badge := render (config_of level).

Definition low_badge : badge :=
  {| badge_class := "badge badge-success"; badge_label := Some "Low" |}.

Definition level_names : list string := ["critical"; "high"; "medium"; "low"].

End RiskBadge.

(* ------------------------------------------------------------------------- *)
(** ** RiskClassifier *)

Module Classifier.

Inductive RiskLevel := Low | Medium | High | Critical.

Definition RiskLevel_eqb (a b : RiskLevel) : bool :=
  match a, b with
  | Low, Low | Medium, Medium | High, High | Critical, Critical => true
  | _, _ => false
  end.

(** Modelled from the spec: the backend RiskClassifier (not in the
    sources); the bracket table of section 4.4, tested from the top tier
    down, each bracket closed on the left. *)
Definition classify_risk (s : Q) : RiskLevel :=
  if Qle_bool (3 # 4) s then Critical
  else if Qle_bool (1 # 2) s then High
  else if Qle_bool (1 # 4) s then Medium
  else Low.

(** Modelled from the spec: [is_suspicious = normalized_score >=
    configured_threshold]. *)
Definition is_suspicious (threshold s : Q) : bool := Qle_bool threshold s.

(** Default of the run's threshold (spec 4.6; the Settings page of the
    frontend initialises [anomalyThreshold] to [0.5]). *)
Definition default_threshold : Q := 1 # 2.

End Classifier.

(* ------------------------------------------------------------------------- *)
(** ** FeatureExtractor *)

Module Features.

(** A reading; the timestamp is naive local time, split into a day number
    (days since 1970-01-01, a Thursday) and the hour of that day. *)
Record Reading := {
  meter_id : string;
  day : Z;
  hour : Z;
  consumption_kwh : Q
}.

Record FeatureVector := {
  hourly_avg : Q;
  daily_variance : Q;
  night_ratio : Q;
  peak_ratio : Q;
  weekend_ratio : Q
}.

Inductive ExtractError := InsufficientDataError.

(** Modelled from the spec: the minimum reading count of section 4.1. *)
Definition min_readings : nat := 24.

(** Modelled from the spec: the night window 00:00-06:00. *)
Definition night_hours : list Z := [0; 1; 2; 3; 4; 5]%Z.

(** Modelled from the spec: the fixed set of peak hours (evening peak). *)
Definition peak_hours : list Z := [17; 18; 19; 20; 21]%Z.

(** Monday = 0, ..., Saturday = 5, Sunday = 6. *)
Definition weekday (d : Z) : Z := ((d + 3) mod 7)%Z.

Definition is_weekend (d : Z) : bool := Z.leb 5 (weekday d).

Definition sumQ (l : list Q) : Q := fold_right Qplus 0 l.

Definition meanQ (l : list Q) : Q :=
  match l with
  | [] => 0
  | _ => sumQ l / inject_Z (Z.of_nat (List.length l))
  end.

(** Population variance. *)
Definition varianceQ (l : list Q) : Q :=
  let m := meanQ l in meanQ (map (fun x => (x - m) * (x - m)) l).

(** [part / total], defined as 0 when the total is 0. *)
Definition ratio (part total : Q) : Q :=
  if Qeq_bool total 0 then 0 else part / total.

(** Adds a reading's consumption to its calendar-day bucket. *)
Fixpoint add_to_day (d : Z) (q : Q) (buckets : list (Z * Q)) : list (Z * Q) :=
  match buckets with
  | [] => [(d, q)]
  | (d', t) :: bs =>
      if Z.eqb d d' then (d', t + q) :: bs else (d', t) :: add_to_day d q bs
  end.

Definition daily_totals (rs : list Reading) : list Q :=
  map snd (fold_left (fun b r => add_to_day (day r) (consumption_kwh r) b) rs []).

Definition sum_where (p : Reading -> bool) (rs : list Reading) : Q :=
  sumQ (map consumption_kwh (filter p rs)).

Definition in_hours (hs : list Z) (r : Reading) : bool :=
  existsb (Z.eqb (hour r)) hs.

(** Modelled from the spec: the FeatureExtractor of section 4.1. *)
Definition extract_features (rs : list Reading) : ExtractError + FeatureVector :=
  if Nat.ltb (List.length rs) min_readings then inl InsufficientDataError
  else
    let total := sumQ (map consumption_kwh rs) in
    inr {| hourly_avg := meanQ (map consumption_kwh rs);
           daily_variance := varianceQ (daily_totals rs);
           night_ratio := ratio (sum_where (in_hours night_hours) rs) total;
           peak_ratio := ratio (sum_where (in_hours peak_hours) rs) total;
           weekend_ratio := ratio (sum_where (fun r => is_weekend (day r)) rs) total |}.

End Features.

(* ------------------------------------------------------------------------- *)
(** ** ScoreNormalizer *)

Module Normalizer.

Definition batch_min (x : Q) (xs : list Q) : Q := fold_left Qmin xs x.
Definition batch_max (x : Q) (xs : list Q) : Q := fold_left Qmax xs x.

(** Modelled from the spec: min-max scaling within the batch (section 4.3);
    a single-meter batch or a batch of equal raw scores maps to 0.0. *)
Definition normalize_scores (raws : list Q) : list Q :=
  match raws with
  | [] => []
  | x :: xs =>
      let mn := batch_min x xs in
      let mx := batch_max x xs in
      if Nat.leb (List.length raws) 1 || Qeq_bool mx mn then map (fun _ => 0) raws
      else map (fun r => (r - mn) / (mx - mn)) raws
  end.

End Normalizer.

(* ------------------------------------------------------------------------- *)
(** ** ExplanationGenerator *)

Module Explanation.
Import Features.

(** The fixed feature-name ordering of the FeatureVector schema. *)
Definition feature_values (fv : FeatureVector) : list (string * Q) :=
  [ ("hourly_avg", hourly_avg fv); ("daily_variance", daily_variance fv);
    ("night_ratio", night_ratio fv); ("peak_ratio", peak_ratio fv);
    ("weekend_ratio", weekend_ratio fv) ].

(** Per-feature (mean, variance) over the batch, in the fixed order. *)
Definition baseline (batch : list FeatureVector) : list (Q * Q) :=
  map (fun i =>
         let xs := map (fun fv => snd (nth i (feature_values fv) (EmptyString, 0))) batch in
         (meanQ xs, varianceQ xs))
      [0; 1; 2; 3; 4]%nat.

(** Squared z-score (comparing squares avoids the square root). *)
Definition z_sq (x mu var : Q) : Q :=
  if Qeq_bool var 0 then 0 else (x - mu) * (x - mu) / var.

(** The feature with the largest |z|; ties keep the earlier feature. *)
Fixpoint top_feature (best : string * Q * Q * Q)
    (fs : list (string * Q)) (bl : list (Q * Q)) : string * Q * Q * Q :=
  match fs, bl with
  | (n, x) :: fs', (mu, var) :: bl' =>
      let '(_, _, _, z) := best in
      let z' := z_sq x mu var in
      top_feature (if Qlt_le_dec z z' then (n, x, mu, z') else best) fs' bl'
  | _, _ => best
  end.

(** Modelled from the spec: the ExplanationGenerator of section 4.5 (one
    named feature; the tone follows the suspicious flag). *)
Definition explain (batch : list FeatureVector) (fv : FeatureVector)
    (suspicious : bool) : string :=
  if negb suspicious then "Consumption pattern is within normal bounds."
  else
    let '(n, x, mu, _) :=
      top_feature ("hourly_avg", hourly_avg fv, 0, (-1)%Q)
                  (feature_values fv) (baseline batch) in
    "Unusually " ++ (if Qle_bool mu x then "high " else "low ") ++ n
      ++ " relative to peers.".

End Explanation.

(* ------------------------------------------------------------------------- *)
(** ** DetectionOrchestrator and result store *)

Module Engine.
Import Features Classifier Normalizer.

Inductive Model := IsolationForest | Autoencoder.

(** Modelled from the spec: model selection at RunDetection time. *)
Definition resolve_model (s : string) : option Model :=
  if String.eqb s "isolation_forest" then Some IsolationForest
  else if String.eqb s "autoencoder" then Some Autoencoder
  else None.

Inductive RunError :=
| UnknownModelError
| InvalidThresholdError
| EmptyBatchError
| StoreUnreachableError.

(** Modelled from the spec: the store's answer to one result write (4.6, 7):
    acknowledged, a StoreWriteFailure for that meter, or the store
    unreachable entirely. *)
Inductive WriteStatus := WriteOk | StoreWriteFailure | StoreUnreachable.

Record AnomalyResult := {
  ar_meter_id : string;
  anomaly_score : Q;
  risk_level : RiskLevel;
  is_suspicious_flag : bool;
  explanation : string;
  model_used : Model;
  computed_at : Z
}.

Record DetectionRun := {
  run_model : Model;
  run_threshold : Q;
  run_results : list AnomalyResult;
  meters_analyzed : nat;
  suspicious_count : nat;
  critical_count : nat;
  high_count : nat;
  medium_count : nat;
  low_count : nat;
  completed_at : Z
}.

(** The external store: current results, upserted by meter id. *)
Definition Store := list AnomalyResult.

(** Engine state: the store, a log of the meters whose readings were taken
    up for per-meter work, and the log of the meters whose result write
    failed. *)
Record EngineState := { store : Store; work_log : list string; failure_log : list string }.

Definition initial_state : EngineState := {| store := []; work_log := []; failure_log := [] |}.

(** The stored entries of one meter. *)
Definition for_meter (m : string) (x : AnomalyResult) : bool :=
  String.eqb (ar_meter_id x) m.

(** Modelled from the spec: upsert-by-meter-id (latest wins). *)
Definition upsert (r : AnomalyResult) (st : Store) : Store :=
  r :: filter (fun x => negb (String.eqb (ar_meter_id x) (ar_meter_id r))) st.

Definition write_all (rs : list AnomalyResult) (st : Store) : Store :=
  fold_left (fun s r => upsert r s) rs st.

(** The outcome of writing a run's results: the store afterwards, the
    results written (acknowledged), the meters whose write failed, and
    whether the store stayed reachable. *)
Record WriteReport := {
  wr_store : Store;
  wr_written : list AnomalyResult;
  wr_failed : list string;
  wr_reachable : bool
}.

(** Modelled from the spec (4.6, 5, 7): the results are written one meter at
    a time, each write atomic (an upsert); a StoreWriteFailure is logged,
    that meter is not counted, and the writes go on; an unreachable store
    stops the writes (what was written stays). *)
Fixpoint write_results (status : string -> WriteStatus) (rs : list AnomalyResult)
    (st : Store) : WriteReport :=
  match rs with
  | [] => {| wr_store := st; wr_written := []; wr_failed := []; wr_reachable := true |}
  | r :: rs' =>
      match status (ar_meter_id r) with
      | WriteOk =>
          let rep := write_results status rs' (upsert r st) in
          {| wr_store := wr_store rep; wr_written := r :: wr_written rep;
             wr_failed := wr_failed rep; wr_reachable := wr_reachable rep |}
      | StoreWriteFailure =>
          let rep := write_results status rs' st in
          {| wr_store := wr_store rep; wr_written := wr_written rep;
             wr_failed := ar_meter_id r :: wr_failed rep; wr_reachable := wr_reachable rep |}
      | StoreUnreachable =>
          {| wr_store := st; wr_written := []; wr_failed := []; wr_reachable := false |}
      end
  end.

(** Whether the store acknowledges the write of a meter's result. *)
Definition write_acknowledged (status : string -> WriteStatus) (id : string) : bool :=
  match status id with WriteOk => true | _ => false end.

(** Ingestion collaborator: meter ids and per-meter reading sequences. *)
Definition all_meter_ids (ing : list Reading) : list string :=
  nodup string_dec (map meter_id ing).

Definition readings_of (m : string) (ing : list Reading) : list Reading :=
  filter (fun r => String.eqb (meter_id r) m) ing.

Definition resolve_meters (ids : option (list string)) (ing : list Reading)
  : list string :=
  match ids with
  | None => all_meter_ids ing
  | Some l => nodup string_dec l
  end.

(** Partial-failure accumulator: keep the meters whose extraction succeeded. *)
Fixpoint valid_meters (attempts : list (string * (ExtractError + FeatureVector)))
  : list (string * FeatureVector) :=
  match attempts with
  | [] => []
  | (m, inr fv) :: a => (m, fv) :: valid_meters a
  | (_, inl _) :: a => valid_meters a
  end.

Section Orchestrator.

(** The detector variants: fitted fresh on the batch, then scoring one
    vector (higher = more anomalous).  Isolation forest and autoencoder
    internals are not modelled; every claim below holds for any scorer. *)
Variable detector_score : Model -> list FeatureVector -> FeatureVector -> Q.

Definition make_result (m : Model) (th : Q) (now : Z) (batch : list FeatureVector)
    (p : string * FeatureVector * Q) : AnomalyResult :=
  let '(id, fv, s) := p in
  {| ar_meter_id := id;
     anomaly_score := s;
     risk_level := classify_risk s;
     is_suspicious_flag := is_suspicious th s;
     explanation := Explanation.explain batch fv (is_suspicious th s);
     model_used := m;
     computed_at := now |}.

Definition score_batch (m : Model) (th : Q) (now : Z)
    (valid : list (string * FeatureVector)) : list AnomalyResult :=
  let batch := map snd valid in
  let norms := normalize_scores (map (detector_score m batch) batch) in
  map (make_result m th now batch) (combine valid norms).

Definition count_tier (t : RiskLevel) (rs : list AnomalyResult) : nat :=
  List.length (filter (fun r => RiskLevel_eqb (risk_level r) t) rs).

Definition summarize (m : Model) (th : Q) (now : Z) (rs : list AnomalyResult)
  : DetectionRun :=
  {| run_model := m; run_threshold := th; run_results := rs;
     meters_analyzed := List.length rs;
     suspicious_count := List.length (filter is_suspicious_flag rs);
     critical_count := count_tier Critical rs;
     high_count := count_tier High rs;
     medium_count := count_tier Medium rs;
     low_count := count_tier Low rs;
     completed_at := now |}.

(** Modelled from the spec: RunDetection / DetectionOrchestrator (4.6, 7);
    [write_status] is the store's answer to each meter's result write.  The
    summary counts the results written. *)
Definition run_detection (model_id : string) (threshold : option Q)
    (meter_ids : option (list string)) (now : Z) (ing : list Reading)
    (write_status : string -> WriteStatus)
    (s : EngineState) : (RunError + DetectionRun) * EngineState :=
  match resolve_model model_id with
  | None => (inl UnknownModelError, s)
  | Some m =>
      let th := match threshold with Some t => t | None => default_threshold end in
      if negb (Qle_bool 0 th && Qle_bool th 1) then (inl InvalidThresholdError, s)
      else
        let meters := resolve_meters meter_ids ing in
        let s1 := {| store := store s; work_log := work_log s ++ meters;
                     failure_log := failure_log s |} in
        let valid :=
          valid_meters (map (fun id => (id, extract_features (readings_of id ing))) meters) in
        match valid with
        | [] => (inl EmptyBatchError, s1)
        | _ =>
            let rs := score_batch m th now valid in
            let rep := write_results write_status rs (store s) in
            let s2 := {| store := wr_store rep; work_log := work_log s1;
                         failure_log := failure_log s ++ wr_failed rep |} in
            if wr_reachable rep then (inr (summarize m th now (wr_written rep)), s2)
            else (inl StoreUnreachableError, s2)
        end
  end.

End Orchestrator.

(** Modelled from the spec: GetResults reads the current results, keeps the
    suspicious ones when asked, and returns at most [limit] of them. *)
Definition get_results (s : EngineState) (suspicious_only : bool) (limit : nat)
  : list AnomalyResult :=
  firstn limit
    (if suspicious_only then filter is_suspicious_flag (store s) else store s).

(** Modelled from the spec: the endpoint's defaults
    [suspicious_only = false], [limit = 100] for absent parameters. *)
Definition GetResults (s : EngineState) (suspicious_only : option bool)
    (limit : option nat) : list AnomalyResult :=
  get_results s (match suspicious_only with Some b => b | None => false end)
    (match limit with Some n => n | None => 100%nat end).

(** [anomalyAPI.getResults(suspiciousOnly = false, limit = 100)]
    (services/api.js): the query parameters it sends; an omitted argument
    is [undefined] and takes its default. *)
Definition getResults_params (suspiciousOnly : option bool) (limit : option nat)
  : bool * nat :=
  (match suspiciousOnly with Some b => b | None => false end,
   match limit with Some n => n | None => 100%nat end).

(** States reachable from the empty store by detection runs (with any
    ingestion snapshot, model, threshold, meter subset and store answers). *)
Inductive reachable (detector_score : Model -> list FeatureVector -> FeatureVector -> Q)
  : EngineState -> Prop :=
| reach_init : reachable detector_score initial_state
| reach_run : forall s mid th ids now ing ws o s',
    reachable detector_score s ->
    run_detection detector_score mid th ids now ing ws s = (o, s') ->
    reachable detector_score s'.

End Engine.

(* ------------------------------------------------------------------------- *)
(** ** Sample data *)

Module Samples.
Import Features Engine.

Definition mk_readings (id : string) (n : nat) (f : nat -> Q) : list Reading :=
  map (fun i => {| meter_id := id; day := Z.of_nat (i / 24);
                   hour := Z.of_nat (i mod 24); consumption_kwh := f i |})
      (seq 0 n).

(** A flat meter, a meter with night-time spikes, and a short meter. *)
Definition ingest : list Reading :=
  mk_readings "A" 48 (fun _ => 1)
  ++ mk_readings "B" 48 (fun i => if Nat.ltb (i mod 24) 6 then 10 else 0)
  ++ mk_readings "C" 5 (fun _ => 1).

(** A scorer for tests: the night-time share of consumption. *)
Definition night_scorer (_ : Model) (_ : list FeatureVector) (fv : FeatureVector) : Q :=
  night_ratio fv.

(** A store with one suspicious and one normal result. *)
Definition sample_result (id : string) (sc : Q) (flag : bool) : AnomalyResult :=
  {| ar_meter_id := id; anomaly_score := sc; risk_level := Classifier.classify_risk sc;
     is_suspicious_flag := flag; explanation := EmptyString; model_used := IsolationForest;
     computed_at := 0%Z |}.

Definition sample_state : EngineState :=
  {| store := [sample_result "B" 1 true; sample_result "A" 0 false]; work_log := [];
     failure_log := [] |}.

(** Store answers: every write acknowledged; the write of meter [m] fails. *)
Definition all_writes_ok (_ : string) : WriteStatus := WriteOk.

Definition write_fails_for (m : string) (id : string) : WriteStatus :=
  if String.eqb id m then StoreWriteFailure else WriteOk.

End Samples.

(* ------------------------------------------------------------------------- *)
(** ** Frontend: JavaScript values *)

Module Js.

(** The JSON values the frontend reads from the API.  Numbers are exact
    rationals (the API's JSON carries no NaN or infinities). *)
Inductive jsval :=
| Undefined
| Null
| Bool (b : bool)
| Num (q : Q)
| Str (s : string).

(** ToBoolean: the test of [if (v)], [v ? .. : ..] and [||]. *)
Definition truthy (v : jsval) : bool :=
  match v with
  | Undefined | Null => false
  | Bool b => b
  | Num q => negb (Qeq_bool q 0)
  | Str s => negb (String.eqb s EmptyString)
  end.

(** [a || b] *)
Definition or_else (a b : jsval) : jsval := if truthy a then a else b.

(** [v === null || v === undefined], also the test of [??] and [?.]. *)
Definition nullish (v : jsval) : bool :=
  match v with Undefined | Null => true | _ => false end.

(** [v === 's'] *)
Definition is_str (s : string) (v : jsval) : bool :=
  match v with Str t => String.eqb t s | _ => false end.

(** [s.endsWith(suffix)]: some suffix of [s] is [suffix] (strings of
    single-unit characters). *)
Fixpoint ends_with (suffix s : string) : bool :=
  String.eqb s suffix ||
  match s with
  | EmptyString => false
  | String _ s' => ends_with suffix s'
  end.

(** [Math.round(x)]: the nearest integer, halves rounded up. *)
Definition math_round (x : Q) : Z := Qfloor (x + (1 # 2)).

End Js.

(* ------------------------------------------------------------------------- *)
(** ** DataTable (frontend/src/components/DataTable.jsx) *)

Module DataTable.
Import Js.

Inductive direction := Asc | Desc.

(** [sortConfig = { key, direction }], initially [{ key: null, direction: 'asc' }]. *)
Record sort_config := { sort_key : option string; sort_direction : direction }.

Definition initial_sort_config : sort_config :=
  {| sort_key := None; sort_direction := Asc |}.

(** [handleSort(key)] *)
Definition handleSort (key : string) (sortConfig : sort_config) : sort_config :=
  let direction :=
    match sort_key sortConfig, sort_direction sortConfig with
    | Some k, Asc => if String.eqb k key then Desc else Asc
    | _, _ => Asc
    end in
  {| sort_key := Some key; sort_direction := direction |}.

(** The value returned by the comparator of [sortedData]: a constant, a
    difference of numbers, or [aStr.localeCompare(bStr)] for the two values
    converted by [String(v).toLowerCase()] (kept symbolic). *)
Inductive cmp_result :=
| CmpConst (z : Z)
| CmpDiff (q : Q)
| CmpLocale (a b : jsval).

(** The comparator passed to [Array.prototype.sort], on [aVal = a[key]] and
    [bVal = b[key]]. *)
Definition sort_compare (d : direction) (aVal bVal : jsval) : cmp_result :=
  if nullish aVal then CmpConst 1%Z
  else if nullish bVal then CmpConst (-1)%Z
  else match aVal, bVal with
       | Num a, Num b =>
           match d with Asc => CmpDiff (a - b) | Desc => CmpDiff (b - a) end
       | _, _ =>
           match d with Asc => CmpLocale aVal bVal | Desc => CmpLocale bVal aVal end
       end.

(** A column: its [key], whether it has a [render] function, its [type] and
    its [decimals]. *)
Record column := {
  col_key : string;
  col_render : bool;
  col_type : jsval;
  col_decimals : jsval
}.

(** What [renderCell] returns. *)
Inductive cell :=
| Rendered (value : jsval)            (* column.render(value, row) *)
| RiskBadgeCell (level : jsval)       (* <RiskBadge level={value} /> *)
| ScoreBarCell (score : jsval)        (* <ScoreBar score={value} /> *)
| WarningIcon                         (* <AlertTriangle className="text-warning" /> *)
| SuccessIcon                         (* <CheckCircle className="text-success" /> *)
| FixedText (q : Q) (digits : jsval)  (* value.toFixed(digits) *)
| Plain (v : jsval).                  (* the value as a text node *)

(** [renderCell(row, column)], the row read as [row[column.key]]. *)
Definition renderCell (row : string -> jsval) (c : column) : cell :=
  let value := row (col_key c) in
  if col_render c then Rendered value
  else if is_str "risk" (col_type c) then RiskBadgeCell value
  else if is_str "score" (col_type c) then ScoreBarCell value
  else if is_str "boolean" (col_type c) then
    (if truthy value then WarningIcon else SuccessIcon)
  else match value with
       | Num q => FixedText q (or_else (col_decimals c) (Num 2))
       | _ => Plain (if nullish value then Str "-" else value)
       end.

(** The fill colours of [ScoreBar]. *)
Inductive bar_color := Red | Amber | Green.

Definition color_code (c : bar_color) : string :=
  match c with Red => "#ef4444" | Amber => "#f59e0b" | Green => "#10b981" end.

(** [score >= 0.7 ? '#ef4444' : score >= 0.4 ? '#f59e0b' : '#10b981'] *)
Definition score_color (score : Q) : bar_color :=
  if Qle_bool (7 # 10) score then Red
  else if Qle_bool (2 # 5) score then Amber
  else Green.

(** Severity order of the colours, green lowest. *)
Definition color_rank (c : bar_color) : nat :=
  match c with Green => 0 | Amber => 1 | Red => 2 end.

End DataTable.

(* ------------------------------------------------------------------------- *)
(** ** StatCard (unnamed/part_000) *)

Module StatCard.
Import Js.

(** What [formatValue] returns. *)
Inductive formatted :=
| Millions (m : Q)       (* `${m.toFixed(1)}M` *)
| Thousands (k : Q)      (* `${k.toFixed(1)}K` *)
| Localized (z : Z)      (* z.toLocaleString() *)
| Fixed1 (q : Q)         (* q.toFixed(1) *)
| Unchanged (v : jsval). (* val itself *)

(** [Number.isInteger] *)
Definition is_integer (q : Q) : bool := Z.eqb (Z.modulo (Qnum q) (Zpos (Qden q))) 0.

Definition formatValue (val : jsval) : formatted :=
  match val with
  | Num q =>
      if Qle_bool (1000000 # 1) q then Millions (q / (1000000 # 1))
      else if Qle_bool (1000 # 1) q then Thousands (q / (1000 # 1))
      else if is_integer q then Localized (Z.div (Qnum q) (Zpos (Qden q)))
      else Fixed1 q
  | _ => Unchanged val
  end.

End StatCard.

(* ------------------------------------------------------------------------- *)
(** ** ThemeContext (frontend/src/context/ThemeContext.jsx) *)

Module Theme.

(** [localStorage.getItem('powerguard-theme') || 'dark'] *)
Definition initial_theme (saved : option string) : string :=
  match saved with
  | Some s => if String.eqb s EmptyString then "dark" else s
  | None => "dark"
  end.

(** [toggleTheme]: [prev === 'dark' ? 'light' : 'dark'] *)
Definition toggleTheme (prev : string) : string :=
  if String.eqb prev "dark" then "light" else "dark".

(** [isDark: theme === 'dark'] *)
Definition isDark (theme : string) : bool := String.eqb theme "dark".

(** The themes of a session started with [saved] in storage: the initial
    one, then [toggleTheme] (the Sidebar button) or [setTheme('light')] and
    [setTheme('dark')] (the Settings page).  The effect writes each one
    back to storage. *)
Inductive theme_reachable (saved : option string) : string -> Prop :=
| th_init : theme_reachable saved (initial_theme saved)
| th_toggle t : theme_reachable saved t -> theme_reachable saved (toggleTheme t)
| th_set_light t : theme_reachable saved t -> theme_reachable saved "light"
| th_set_dark t : theme_reachable saved t -> theme_reachable saved "dark".

End Theme.

(* ------------------------------------------------------------------------- *)
(** ** API client (unnamed/part_001) *)

Module Api.
Import Js.

(** An element of [GET /anomaly/results]. *)
Record result_row := {
  row_meter_id : jsval;
  row_anomaly_score : jsval;
  row_risk_level : jsval;
  row_is_suspicious : jsval;
  row_explanation : jsval
}.

(** An element of [readings] in [GET /meters/{id}/timeseries]. *)
Record reading_json := {
  rd_timestamp : string;
  rd_consumption_kwh : jsval;
  rd_is_anomaly : jsval
}.

(** The body of [GET /meters/{id}/timeseries]; [readings] may be absent. *)
Record meter_series := { readings : option (list reading_json) }.

(** [onUploadProgress] of [uploadCSV(file, onProgress)]: the percentage passed
    to [onProgress], if it is called; [total] is [None] when undefined. *)
Definition upload_progress (has_onProgress : bool) (loaded : Q) (total : option Q)
  : option Z :=
  match total with
  | Some t =>
      if has_onProgress && negb (Qeq_bool t 0)
      then Some (math_round (loaded * 100 / t)) else None
  | None => None
  end.

(** The [options] of [runDetection(options = {})]. *)
Record detect_options := {
  opt_model : jsval;
  opt_threshold : jsval;
  opt_meterIds : jsval
}.

Definition no_options : detect_options :=
  {| opt_model := Undefined; opt_threshold := Undefined; opt_meterIds := Undefined |}.

(** The JSON body posted to [/anomaly/detect] (an [Undefined] field is left out). *)
Record detect_body := {
  body_model : jsval;
  body_threshold : jsval;
  body_meter_ids : jsval
}.

Definition runDetection_body (options : detect_options) : detect_body :=
  {| body_model := or_else (opt_model options) (Str "isolation_forest");
     body_threshold := opt_threshold options;
     body_meter_ids := opt_meterIds options |}.

End Api.

(* ------------------------------------------------------------------------- *)
(** ** Data hooks (frontend/src/hooks/useData.js) *)

Module Hooks.
Import Js Api.

(** The state shared by the fetching hooks: the data, [loading] and [error]. *)
Record fetch_state (A : Type) := { data : A; loading : bool; error : jsval }.
Arguments Build_fetch_state {A}.
Arguments data {A}.
Arguments loading {A}.
Arguments error {A}.

(** How a request settles: with its data, or rejected with
    [err.response?.data?.detail] ([Undefined] when there is no response). *)
Inductive response (A : Type) := Ok (a : A) | Failed (detail : jsval).
Arguments Ok {A}.
Arguments Failed {A}.

(** [err.response?.data?.detail || msg] *)
Definition error_message (detail : jsval) (msg : string) : jsval :=
  or_else detail (Str msg).

(** The fetch callback shared by useDashboardStats, useAnomalyResults,
    useMeterList and useMeterTimeSeries: [setLoading(true)], [setError(null)],
    then [setX(data)] or [setError(...)], and [setLoading(false)] in
    [finally]. *)
Definition fetch {A} (msg : string) (s : fetch_state A) (r : response A)
  : fetch_state A :=
  let s1 := {| data := data s; loading := true; error := Null |} in
  match r with
  | Ok a => {| data := a; loading := false; error := error s1 |}
  | Failed d => {| data := data s1; loading := false; error := error_message d msg |}
  end.

Definition fetchStats : fetch_state jsval -> response jsval -> fetch_state jsval :=
  fetch "Failed to fetch statistics".

Definition fetchResults
  : fetch_state (list result_row) -> response (list result_row) -> fetch_state (list result_row) :=
  fetch "Failed to fetch results".

Definition fetchMeters
  : fetch_state (list jsval) -> response (list jsval) -> fetch_state (list jsval) :=
  fetch "Failed to fetch meters".

(** The states the hooks start in: [stats] null, [results] and [meters]
    empty, all loading; the time series not loading. *)
Definition initial_stats : fetch_state jsval := {| data := Null; loading := true; error := Null |}.
Definition initial_results : fetch_state (list result_row) := {| data := []; loading := true; error := Null |}.
Definition initial_meters : fetch_state (list jsval) := {| data := []; loading := true; error := Null |}.
Definition initial_series : fetch_state (option meter_series) :=
  {| data := None; loading := false; error := Null |}.

(** [fetchData] of useMeterTimeSeries(meterId): the new state and the meter
    ids requested from [metersAPI.getTimeSeries], answered by [server]. *)
Definition fetchData (meterId : jsval) (server : jsval -> response meter_series)
    (s : fetch_state (option meter_series))
  : fetch_state (option meter_series) * list jsval :=
  if negb (truthy meterId) then
    ({| data := None; loading := loading s; error := error s |}, [])
  else
    (fetch "Failed to fetch meter data" s
       match server meterId with Ok a => Ok (Some a) | Failed d => Failed d end,
     [meterId]).

(** useAnomalyDetection's state: [loading], [error], [result]. *)
Record detection_state := { det_loading : bool; det_error : jsval; det_result : jsval }.

Definition initial_detection : detection_state :=
  {| det_loading := false; det_error := Null; det_result := Null |}.

(** [runDetection(options)] of useAnomalyDetection, the backend answering the
    posted body with [server]: the new state and the returned data ([inl]) or
    the value of the thrown [Error] ([inr]). *)
Definition runDetection (server : detect_body -> response jsval)
    (s : detection_state) (options : detect_options)
  : detection_state * (jsval + jsval) :=
  let s1 := {| det_loading := true; det_error := Null; det_result := det_result s |} in
  match server (runDetection_body options) with
  | Ok d => ({| det_loading := false; det_error := det_error s1; det_result := d |}, inl d)
  | Failed detail =>
      let errorMsg := error_message detail "Detection failed" in
      ({| det_loading := false; det_error := errorMsg; det_result := det_result s1 |}, inr errorMsg)
  end.

(** useFileUpload's state: [loading], [progress], [error], [result]. *)
Record upload_state := {
  up_loading : bool;
  up_progress : Z;
  up_error : jsval;
  up_result : jsval
}.

Definition initial_upload : upload_state :=
  {| up_loading := false; up_progress := 0; up_error := Null; up_result := Null |}.

(** [reset()] *)
Definition reset (_ : upload_state) : upload_state :=
  {| up_loading := false; up_progress := 0; up_error := Null; up_result := Null |}.

(** [setProgress(percent)] for one [onUploadProgress] event [(loaded, total)]. *)
Definition on_progress_event (st : upload_state) (ev : Q * option Q) : upload_state :=
  match upload_progress true (fst ev) (snd ev) with
  | Some percent =>
      {| up_loading := up_loading st; up_progress := percent;
         up_error := up_error st; up_result := up_result st |}
  | None => st
  end.

(** [upload(file)]: the progress events of the request, then its response;
    the new state and the returned data ([inl]) or the thrown value ([inr]). *)
Definition upload (s : upload_state) (events : list (Q * option Q)) (r : response jsval)
  : upload_state * (jsval + jsval) :=
  let s1 := {| up_loading := true; up_progress := 0; up_error := Null; up_result := up_result s |} in
  let s2 := fold_left on_progress_event events s1 in
  match r with
  | Ok d =>
      ({| up_loading := false; up_progress := up_progress s2;
          up_error := up_error s2; up_result := d |}, inl d)
  | Failed detail =>
      let errorMsg := error_message detail "Upload failed" in
      ({| up_loading := false; up_progress := up_progress s2;
          up_error := errorMsg; up_result := up_result s2 |}, inr errorMsg)
  end.

End Hooks.

(* ------------------------------------------------------------------------- *)
(** ** Pages: Dashboard (unnamed/part_002), RiskTable, Upload
       (frontend/src/pages/RiskTable.jsx), Analytics *)

Module Pages.
Import Js Api Hooks.



(** RiskTable's summary counts. *)
Definition criticalCount (results : list result_row) : nat :=
  List.length (filter (fun r => is_str "critical" (row_risk_level r)) results).

Definition highCount (results : list result_row) : nat :=
  List.length (filter (fun r => is_str "high" (row_risk_level r)) results).

Definition suspiciousCount (results : list result_row) : nat :=
  List.length (filter (fun r => truthy (row_is_suspicious r)) results).

(** The explanation columns' render [{value?.substring(0, n)}...] (n = 80 on
    the RiskTable, 60 on the Dashboard): the cell text, [None] where
    [substring] is not a function of the value and the render throws. *)
Definition explanation_text (n : nat) (value : jsval) : option string :=
  match value with
  | Undefined | Null => Some "..."
  | Str s => Some (String.substring 0 n s ++ "...")
  | _ => None
  end.

(** The RiskTable's model select: initially ['isolation_forest'], then set to
    the value of the chosen option. *)
Inductive model_option := OptIsolationForest | OptAutoencoder.

Definition option_value (o : model_option) : string :=
  match o with
  | OptIsolationForest => "isolation_forest"
  | OptAutoencoder => "autoencoder"
  end.

Definition selectedModel (changes : list model_option) : string :=
  fold_left (fun _ o => option_value o) changes "isolation_forest".

(** The options of the RiskTable's [runDetection({ model: selectedModel })]
    and of the Upload page's [runDetection({ model: 'isolation_forest' })]. *)
Definition riskTable_detect_options (changes : list model_option) : detect_options :=
  {| opt_model := Str (selectedModel changes); opt_threshold := Undefined;
     opt_meterIds := Undefined |}.

Definition upload_detect_options : detect_options :=
  {| opt_model := Str "isolation_forest"; opt_threshold := Undefined;
     opt_meterIds := Undefined |}.

(** The Upload page's state; a file is given by its name. *)
Record upload_page := {
  dragOver : bool;
  selectedFile : option string;
  uploader : upload_state
}.

(** [handleFileSelect]: [file] is [e.target.files?.[0]]. *)
Definition handleFileSelect (file : option string) (p : upload_page) : upload_page :=
  match file with
  | Some name =>
      if ends_with ".csv" name
      then {| dragOver := dragOver p; selectedFile := Some name; uploader := reset (uploader p) |}
      else p
  | None => p
  end.

(** [handleDrop]: [setDragOver(false)], then as [handleFileSelect]. *)
Definition handleDrop (file : option string) (p : upload_page) : upload_page :=
  handleFileSelect file
    {| dragOver := false; selectedFile := selectedFile p; uploader := uploader p |}.

(** [handleUpload]: nothing without a selected file, else [upload] (its
    error is caught). *)
Definition handleUpload (p : upload_page) (events : list (Q * option Q)) (r : response jsval)
  : upload_page :=
  match selectedFile p with
  | None => p
  | Some _ =>
      {| dragOver := dragOver p; selectedFile := selectedFile p;
         uploader := fst (upload (uploader p) events r) |}
  end.

(** Analytics: a point of [chartData]; [timestamp] is the reading's
    timestamp, which the page formats with [toLocaleString]. *)
Record chart_point := {
  cp_index : nat;
  cp_timestamp : string;
  cp_consumption : jsval;
  cp_isAnomaly : jsval
}.

Fixpoint chart_points (index : nat) (rs : list reading_json) : list chart_point :=
  match rs with
  | [] => []
  | r :: rs' =>
      {| cp_index := index; cp_timestamp := rd_timestamp r;
         cp_consumption := rd_consumption_kwh r; cp_isAnomaly := rd_is_anomaly r |}
      :: chart_points (S index) rs'
  end.

(** [meterData?.readings?.map((reading, index) => ...) || []] *)
Definition chartData (meterData : option meter_series) : list chart_point :=
  match meterData with
  | Some m => match readings m with Some rs => chart_points 0 rs | None => [] end
  | None => []
  end.

(** [chartData.filter(point => point.isAnomaly)] *)
Definition anomalyPoints (cd : list chart_point) : list chart_point :=
  filter (fun p => truthy (cp_isAnomaly p)) cd.

(** Analytics' first render: [selectedMeter = ''], useMeterTimeSeries fetches. *)
Definition analytics_initial (server : jsval -> response meter_series)
  : fetch_state (option meter_series) * list jsval :=
  fetchData (Str EmptyString) server initial_series.

End Pages.

(* ------------------------------------------------------------------------- *)
(** ** Frontend sample inputs *)

Module FrontendSamples.
Import Js DataTable.

(** A row with a [consumption_kwh] field, and a plain column showing it with
    [decimals: 0]. *)
Definition sample_row (k : string) : jsval :=
  if String.eqb k "consumption_kwh" then Num (3 # 2) else Undefined.

Definition sample_column : column :=
  {| col_key := "consumption_kwh"; col_render := false; col_type := Undefined;
     col_decimals := Num 0 |}.

(** Upload progress events [(loaded, total)]; the last has no [total]. *)
Definition sample_events : list (Q * option Q) := [(1, Some 4); (4, Some 4); (2, None)].

End FrontendSamples.

(* ========================================================================= *)
(** * Properties *)

Module RiskBadgeProofs.
Import RiskBadge.

Lemma own_lookup_levels_none (k : string) :
  ~ In k level_names -> own_lookup k levels = None.
Proof.
  intros Hn. unfold levels, level_names in *. simpl in *.
  destruct (String.eqb_spec k "critical"); [subst; tauto|].
  destruct (String.eqb_spec k "high"); [subst; tauto|].
  destruct (String.eqb_spec k "medium"); [subst; tauto|].
  destruct (String.eqb_spec k "low"); [subst; tauto|].
  reflexivity.
Qed.

Lemma existsb_eqb_false (k : string) (l : list string) :
  ~ In k l -> existsb (String.eqb k) l = false.
Proof.
  intros Hn. destruct (existsb (String.eqb k) l) eqn:E; [|reflexivity].
  apply existsb_exists in E as [x [Hx Hk]].
  apply String.eqb_eq in Hk. subst. contradiction.
Qed.

Lemma get_undefined (k : string) :
  ~ In k level_names -> ~ In k object_prototype_props -> get k = Undefined.
Proof.
  intros H1 H2. unfold get. rewrite (own_lookup_levels_none k H1).
  rewrite (existsb_eqb_false k _ H2). reflexivity.
Qed.

(** C10 (amended): a [level] whose property key is neither one of the four
    tiers nor a member inherited from [Object.prototype] (this covers
    [null], [undefined] and every other string) renders the 'Low' badge
    with the success style; the four tiers render their own label and
    style. *)
Theorem risk_badge_total_fallback :
  (forall v : js_value,
      ~ In (to_property_key v) level_names ->
      ~ In (to_property_key v) object_prototype_props ->
      RiskBadge v = low_badge)
  /\ RiskBadge JsNull = low_badge
  /\ RiskBadge JsUndefined = low_badge
  /\ RiskBadge (JsString "critical")
       = {| badge_class := "badge badge-danger"; badge_label := Some "Critical" |}
  /\ RiskBadge (JsString "high")
       = {| badge_class := "badge badge-danger"; badge_label := Some "High" |}
  /\ RiskBadge (JsString "medium")
       = {| badge_class := "badge badge-warning"; badge_label := Some "Medium" |}
  /\ RiskBadge (JsString "low") = low_badge.
Proof.
  split.
  - intros v H1 H2. unfold RiskBadge, config_of.
    rewrite (get_undefined _ H1 H2). reflexivity.
  - repeat split; reflexivity.
Qed.

Lemma risk_badge_total_fallback_witness :
  (~ In (to_property_key (JsString "unknown")) level_names /\
   ~ In (to_property_key (JsString "unknown")) object_prototype_props) /\
  RiskBadge (JsString "unknown") = low_badge.
Proof.
  assert (H1 : ~ In (to_property_key (JsString "unknown")) level_names).
  { simpl. intros H. repeat (destruct H as [H|H]; [discriminate H|]). exact H. }
  assert (H2 : ~ In (to_property_key (JsString "unknown")) object_prototype_props).
  { simpl. intros H. repeat (destruct H as [H|H]; [discriminate H|]). exact H. }
  split; [split; assumption|].
  exact (proj1 risk_badge_total_fallback (JsString "unknown") H1 H2).
Defined.

(** C10 counterexample: the string ["constructor"] lies outside the four
    tiers, yet [levels["constructor"]] is the inherited [Object] function,
    which is truthy: the badge gets class ["badge undefined"] and no label,
    not the 'Low' badge. *)
Lemma risk_badge_constructor_not_low :
  RiskBadge (JsString "constructor")
    = {| badge_class := "badge undefined"; badge_label := None |}
  /\ ~ In "constructor" level_names
  /\ RiskBadge (JsString "constructor") <> low_badge.
Proof.
  split; [reflexivity|]. split.
  - simpl. intros H. repeat (destruct H as [H|H]; [discriminate H|]). exact H.
  - vm_compute. intros H. discriminate H.
Qed.

End RiskBadgeProofs.

Module ClassifierProofs.
Import Classifier.

Lemma Qle_bool_true (a b : Q) : a <= b -> Qle_bool a b = true.
Proof. apply Qle_bool_iff. Qed.

Lemma Qle_bool_false (a b : Q) : b < a -> Qle_bool a b = false.
Proof.
  intros H. destruct (Qle_bool a b) eqn:E; [|reflexivity].
  apply Qle_bool_iff in E. exfalso. apply (Qlt_not_le b a H E).
Qed.

(** C1: on [0,1] the tier is given by the closed-left brackets
    [0.75,1] critical, [0.5,0.75) high, [0.25,0.5) medium, [0,0.25) low;
    the boundaries 0.25, 0.5 and 0.75 fall in the higher tier. *)
Theorem classify_risk_brackets (s : Q) :
  0 <= s <= 1 ->
  (3 # 4 <= s -> classify_risk s = Critical)
  /\ (1 # 2 <= s < 3 # 4 -> classify_risk s = High)
  /\ (1 # 4 <= s < 1 # 2 -> classify_risk s = Medium)
  /\ (s < 1 # 4 -> classify_risk s = Low)
  /\ classify_risk (3 # 4) = Critical
  /\ classify_risk (1 # 2) = High
  /\ classify_risk (1 # 4) = Medium.
Proof.
  intros _. unfold classify_risk.
  split; [intros H; rewrite (Qle_bool_true _ _ H); reflexivity|].
  split; [intros [H1 H2]; rewrite (Qle_bool_false _ _ H2), (Qle_bool_true _ _ H1);
          reflexivity|].
  split.
  { intros [H1 H2].
    assert (H3 : s < 3 # 4) by (apply Qlt_le_trans with (1 # 2); [exact H2|];
                                 unfold Qle; simpl; lia).
    rewrite (Qle_bool_false _ _ H3), (Qle_bool_false _ _ H2),
            (Qle_bool_true _ _ H1). reflexivity. }
  split.
  { intros H.
    assert (H2 : s < 1 # 2) by (apply Qlt_le_trans with (1 # 4); [exact H|];
                                 unfold Qle; simpl; lia).
    assert (H3 : s < 3 # 4) by (apply Qlt_le_trans with (1 # 4); [exact H|];
                                 unfold Qle; simpl; lia).
    rewrite (Qle_bool_false _ _ H3), (Qle_bool_false _ _ H2),
            (Qle_bool_false _ _ H). reflexivity. }
  repeat split; reflexivity.
Qed.

Lemma classify_risk_brackets_witness :
  (0 <= 3 # 5 <= 1) /\ classify_risk (3 # 5) = High.
Proof.
  assert (H : 0 <= 3 # 5 <= 1) by (split; unfold Qle; simpl; lia).
  split; [exact H|].
  apply (proj1 (proj2 (classify_risk_brackets (3 # 5) H))).
  split; unfold Qle, Qlt; simpl; lia.
Defined.

End ClassifierProofs.

Module NormalizerProofs.
Import Normalizer.

Lemma Qmin_cases (x y : Q) : Qmin x y = x \/ Qmin x y = y.
Proof. unfold Qmin, GenericMinMax.gmin. destruct (Qcompare x y); auto. Qed.

Lemma Qmax_cases (x y : Q) : Qmax x y = x \/ Qmax x y = y.
Proof. unfold Qmax, GenericMinMax.gmax. destruct (Qcompare x y); auto. Qed.

Lemma batch_min_in (xs : list Q) : forall x, In (batch_min x xs) (x :: xs).
Proof.
  induction xs as [|a xs IH]; intros x; [left; reflexivity|].
  unfold batch_min in *. simpl. specialize (IH (Qmin x a)).
  destruct IH as [E|E]; [|right; right; exact E].
  destruct (Qmin_cases x a) as [E'|E']; rewrite E' in E |- *; rewrite <- E; simpl; auto.
Qed.

Lemma batch_max_in (xs : list Q) : forall x, In (batch_max x xs) (x :: xs).
Proof.
  induction xs as [|a xs IH]; intros x; [left; reflexivity|].
  unfold batch_max in *. simpl. specialize (IH (Qmax x a)).
  destruct IH as [E|E]; [|right; right; exact E].
  destruct (Qmax_cases x a) as [E'|E']; rewrite E' in E |- *; rewrite <- E; simpl; auto.
Qed.

Lemma batch_min_le (xs : list Q) : forall x y, In y (x :: xs) -> batch_min x xs <= y.
Proof.
  induction xs as [|a xs IH]; intros x y Hy.
  - destruct Hy as [<-|[]]. apply Qle_refl.
  - unfold batch_min in *. simpl. destruct Hy as [->|[->|Hy]].
    + apply Qle_trans with (Qmin y a); [apply IH; left; reflexivity|apply Q.le_min_l].
    + apply Qle_trans with (Qmin x y); [apply IH; left; reflexivity|apply Q.le_min_r].
    + apply IH. right. exact Hy.
Qed.

Lemma batch_max_ge (xs : list Q) : forall x y, In y (x :: xs) -> y <= batch_max x xs.
Proof.
  induction xs as [|a xs IH]; intros x y Hy.
  - destruct Hy as [<-|[]]. apply Qle_refl.
  - unfold batch_max in *. simpl. destruct Hy as [->|[->|Hy]].
    + apply Qle_trans with (Qmax y a); [apply Q.le_max_l|apply IH; left; reflexivity].
    + apply Qle_trans with (Qmax x y); [apply Q.le_max_r|apply IH; left; reflexivity].
    + apply IH. right. exact Hy.
Qed.

Lemma normalize_scores_length (raws : list Q) :
  List.length (normalize_scores raws) = List.length raws.
Proof.
  destruct raws as [|x xs]; [reflexivity|]. unfold normalize_scores.
  destruct (_ || _); apply length_map.
Qed.

(** The interpolated value of a score lying between the batch bounds. *)
Lemma interpolate_in_unit (r mn mx : Q) :
  mn <= r -> r <= mx -> ~ mx == mn -> 0 <= (r - mn) / (mx - mn) <= 1.
Proof.
  intros H1 H2 Hne.
  assert (Hd : 0 < mx - mn).
  { destruct (Qle_lt_or_eq mn mx) as [Hl|He];
      [apply Qle_trans with r; assumption|exact (proj1 (Qlt_minus_iff mn mx) Hl)|].
    exfalso. apply Hne. symmetry. exact He. }
  split.
  - apply Qle_shift_div_l; [exact Hd|]. rewrite Qmult_0_l.
    apply (proj1 (Qle_minus_iff mn r)) in H1. exact H1.
  - apply Qle_shift_div_r; [exact Hd|]. rewrite Qmult_1_l.
    apply Qplus_le_l with mn. ring_simplify. exact H2.
Qed.

Lemma normalize_scores_in_unit (raws : list Q) :
  forall n, In n (normalize_scores raws) -> 0 <= n <= 1.
Proof.
  destruct raws as [|x xs]; [intros n []|].
  unfold normalize_scores. intros n Hn.
  destruct (_ || _) eqn:E.
  - apply in_map_iff in Hn as [? [<- _]]. split; [apply Qle_refl|discriminate].
  - apply orb_false_iff in E as [_ E]. apply Qeq_bool_neq in E.
    apply in_map_iff in Hn as [r [<- Hr]].
    apply interpolate_in_unit;
      [apply batch_min_le|apply batch_max_ge|]; assumption.
Qed.

(** C4: in a batch [x :: xs], [batch_min]/[batch_max] are the least and
    greatest raw scores; when the raw scores are not all equal, the score
    at every position [i] is mapped to [(r - min) / (max - min)], so the
    minimum goes to 0 and the maximum to 1; for a single-meter batch or a
    batch of equal raw scores every normalized score is 0. *)
Theorem normalize_scores_min_max (x : Q) (xs : list Q) :
  (In (batch_min x xs) (x :: xs) /\ In (batch_max x xs) (x :: xs)
   /\ forall r, In r (x :: xs) -> batch_min x xs <= r <= batch_max x xs)
  /\ ((exists r, In r (x :: xs) /\ ~ r == x) ->
      forall i r, nth_error (x :: xs) i = Some r ->
        exists n, nth_error (normalize_scores (x :: xs)) i = Some n
          /\ n == (r - batch_min x xs) / (batch_max x xs - batch_min x xs)
          /\ (r == batch_min x xs -> n == 0)
          /\ (r == batch_max x xs -> n == 1))
  /\ ((xs = [] \/ forall r, In r (x :: xs) -> r == x) ->
      normalize_scores (x :: xs) = map (fun _ => 0) (x :: xs)).
Proof.
  assert (Hb : forall r, In r (x :: xs) -> batch_min x xs <= r <= batch_max x xs)
    by (intros r Hr; split; [apply batch_min_le|apply batch_max_ge]; exact Hr).
  split; [split; [apply batch_min_in|split; [apply batch_max_in|exact Hb]]|].
  split.
  - intros [r0 [Hr0 Hne0]] i r Hi.
    assert (Hne : ~ batch_max x xs == batch_min x xs).
    { intros He. apply Hne0.
      destruct (Hb r0 Hr0) as [Ha Hc]. destruct (Hb x (or_introl eq_refl)) as [Hd Hf].
      rewrite He in Hc, Hf. apply Qle_antisym.
      - apply Qle_trans with (batch_min x xs); assumption.
      - apply Qle_trans with (batch_min x xs); assumption. }
    assert (Hxs : xs <> []).
    { intros ->. destruct Hr0 as [<-|[]]. apply Hne0. apply Qeq_refl. }
    assert (Hd : ~ batch_max x xs - batch_min x xs == 0).
    { intros H0. apply Hne. apply Qplus_inj_r with (- batch_min x xs).
      rewrite Qplus_opp_r. exact H0. }
    unfold normalize_scores. cbv beta iota zeta.
    replace (Nat.leb (List.length (x :: xs)) 1) with false
      by (destruct xs; [contradiction|reflexivity]).
    replace (Qeq_bool (batch_max x xs) (batch_min x xs)) with false
      by (symmetry; apply not_true_iff_false; intros Ht;
          apply Hne; apply Qeq_bool_iff; exact Ht).
    change (false || false) with false. cbv iota. rewrite nth_error_map, Hi. simpl.
    eexists. split; [reflexivity|]. split; [apply Qeq_refl|]. split.
    + intros Hr. unfold Qdiv. rewrite Hr. ring.
    + intros Hr. rewrite Hr. field. exact Hd.
  - intros Hdeg. unfold normalize_scores. cbv beta iota zeta.
    destruct Hdeg as [->|Hall]; [reflexivity|].
    replace (Qeq_bool (batch_max x xs) (batch_min x xs)) with true.
    + rewrite orb_true_r. reflexivity.
    + symmetry. apply Qeq_bool_iff.
      rewrite (Hall _ (batch_max_in xs x)), (Hall _ (batch_min_in xs x)).
      apply Qeq_refl.
Qed.

Lemma normalize_scores_min_max_witness :
  (exists r, In r [1; 3; 2] /\ ~ r == 1) /\
  nth_error [1; 3; 2] 2 = Some 2 /\
  exists n, nth_error (normalize_scores [1; 3; 2]) 2 = Some n
    /\ n == (2 - batch_min 1 [3; 2]) / (batch_max 1 [3; 2] - batch_min 1 [3; 2])
    /\ (2 == batch_min 1 [3; 2] -> n == 0)
    /\ (2 == batch_max 1 [3; 2] -> n == 1).
Proof.
  assert (Hex : exists r, In r [1; 3; 2] /\ ~ r == 1).
  { exists 3. split; [right; left; reflexivity|]. unfold Qeq; simpl; lia. }
  split; [exact Hex|]. split; [reflexivity|].
  exact (proj1 (proj2 (normalize_scores_min_max 1 [3; 2])) Hex 2%nat 2 eq_refl).
Defined.

End NormalizerProofs.

Module EngineProofs.
Import Features Classifier Normalizer Engine NormalizerProofs.

Lemma Qle_bool_unit (t : Q) :
  negb (Qle_bool 0 t && Qle_bool t 1) = false -> 0 <= t <= 1.
Proof.
  intros H. apply negb_false_iff, andb_true_iff in H as [H1 H2].
  split; apply Qle_bool_iff; assumption.
Qed.

(** Shape of a completed run. *)
Lemma run_detection_ok ds mid th ids now ing ws s run s' :
  run_detection ds mid th ids now ing ws s = (inr run, s') ->
  exists m t valid,
    resolve_model mid = Some m
    /\ t = match th with Some t => t | None => default_threshold end
    /\ 0 <= t <= 1
    /\ valid = valid_meters (map (fun id => (id, extract_features (readings_of id ing)))
                                 (resolve_meters ids ing))
    /\ valid <> []
    /\ wr_reachable (write_results ws (score_batch ds m t now valid) (store s)) = true
    /\ run = summarize m t now (wr_written (write_results ws (score_batch ds m t now valid) (store s)))
    /\ store s' = wr_store (write_results ws (score_batch ds m t now valid) (store s))
    /\ failure_log s'
       = (failure_log s ++ wr_failed (write_results ws (score_batch ds m t now valid) (store s)))%list.
Proof.
  unfold run_detection. cbv zeta.
  destruct (resolve_model mid) as [m|]; [|discriminate].
  remember (match th with Some t => t | None => default_threshold end) as t eqn:Et.
  destruct (negb (Qle_bool 0 t && Qle_bool t 1)) eqn:Ht; [discriminate|].
  remember (valid_meters _) as valid eqn:Ev.
  destruct valid as [|p ps]; [discriminate|].
  destruct (wr_reachable (write_results ws (score_batch ds m t now (p :: ps)) (store s)))
    eqn:Er; [|discriminate].
  intros H. inversion H; subst. clear H.
  exists m, (match th with Some t => t | None => default_threshold end), (p :: ps).
  repeat split; try reflexivity; try exact Er; try (apply Qle_bool_unit; exact Ht); discriminate.
Qed.

Lemma map_ids_make_result m t now batch (valid : list (string * FeatureVector)) :
  forall norms, List.length valid = List.length norms ->
  map ar_meter_id (map (make_result m t now batch) (combine valid norms))
    = map fst valid.
Proof.
  induction valid as [|[id fv] valid IH]; intros [|n norms] Hl;
    try reflexivity; try discriminate.
  simpl. f_equal. apply IH. simpl in Hl. lia.
Qed.

Lemma score_batch_ids ds m t now valid :
  map ar_meter_id (score_batch ds m t now valid) = map fst valid.
Proof.
  unfold score_batch. apply map_ids_make_result.
  rewrite normalize_scores_length, !length_map. reflexivity.
Qed.

Lemma score_batch_shape ds m t now valid r :
  In r (score_batch ds m t now valid) ->
  exists id fv sc,
    r = make_result m t now (map snd valid) (id, fv, sc)
    /\ In sc (normalize_scores (map (ds m (map snd valid)) (map snd valid))).
Proof.
  unfold score_batch. intros Hr. apply in_map_iff in Hr as [[[id fv] sc] [<- Hin]].
  exists id, fv, sc. split; [reflexivity|]. apply in_combine_r in Hin. exact Hin.
Qed.

Lemma valid_meters_ids (f : string -> ExtractError + FeatureVector) (l : list string) :
  map fst (valid_meters (map (fun id => (id, f id)) l))
    = filter (fun id => match f id with inr _ => true | inl _ => false end) l.
Proof.
  induction l as [|a l IH]; [reflexivity|]. simpl.
  destruct (f a); simpl; [exact IH|f_equal; exact IH].
Qed.

Lemma extract_features_ok (rs : list Reading) :
  match extract_features rs with inr _ => true | inl _ => false end
    = negb (Nat.ltb (List.length rs) min_readings).
Proof. unfold extract_features. destruct (Nat.ltb _ _); reflexivity. Qed.

(** The meters of a completed run, in order. *)
Lemma run_ids ds m t now ids ing :
  map ar_meter_id
    (score_batch ds m t now
       (valid_meters (map (fun id => (id, extract_features (readings_of id ing)))
                          (resolve_meters ids ing))))
  = filter (fun id => negb (Nat.ltb (List.length (readings_of id ing)) min_readings))
           (resolve_meters ids ing).
Proof.
  rewrite score_batch_ids, valid_meters_ids. apply filter_ext.
  intros a. apply extract_features_ok.
Qed.

Lemma resolve_meters_NoDup ids ing : NoDup (resolve_meters ids ing).
Proof. destruct ids; apply NoDup_nodup. Qed.

(* Store *)

Lemma in_upsert x r st : In x (upsert r st) -> x = r \/ In x st.
Proof.
  unfold upsert. intros [<-|H]; [left; reflexivity|].
  apply filter_In in H. right. apply H.
Qed.

Lemma in_write_all x rs : forall st, In x (write_all rs st) -> In x rs \/ In x st.
Proof.
  induction rs as [|r rs IH]; intros st H; [right; exact H|].
  simpl in H. apply IH in H as [H|H]; [left; right; exact H|].
  apply in_upsert in H as [->|H]; [left; left; reflexivity|right; exact H].
Qed.

Lemma filter_filter_weaken {A} (p q : A -> bool) (l : list A) :
  (forall x, p x = true -> q x = true) -> filter p (filter q l) = filter p l.
Proof.
  intros Hpq. induction l as [|a l IH]; [reflexivity|]. simpl.
  destruct (q a) eqn:Eq; simpl.
  - destruct (p a); [f_equal|]; exact IH.
  - destruct (p a) eqn:Ep; [rewrite (Hpq a Ep) in Eq; discriminate|exact IH].
Qed.

Lemma filter_none {A} (p : A -> bool) (l : list A) :
  (forall x, In x l -> p x = false) -> filter p l = [].
Proof.
  induction l as [|a l IH]; intros H; [reflexivity|]. simpl.
  rewrite (H a (or_introl eq_refl)). apply IH. intros x Hx. apply H. right. exact Hx.
Qed.

Lemma filter_upsert_other m r st :
  ar_meter_id r <> m -> filter (for_meter m) (upsert r st) = filter (for_meter m) st.
Proof.
  intros Hne. unfold upsert. simpl. unfold for_meter at 1.
  destruct (String.eqb_spec (ar_meter_id r) m) as [E|_]; [contradiction|].
  apply filter_filter_weaken. intros x Hx. unfold for_meter in Hx.
  apply String.eqb_eq in Hx. rewrite Hx.
  destruct (String.eqb_spec m (ar_meter_id r)); [congruence|reflexivity].
Qed.

Lemma filter_write_all_other m rs : forall st,
  ~ In m (map ar_meter_id rs) ->
  filter (for_meter m) (write_all rs st) = filter (for_meter m) st.
Proof.
  induction rs as [|r rs IH]; intros st Hm; [reflexivity|].
  simpl in *. rewrite IH by tauto. apply filter_upsert_other. tauto.
Qed.

Lemma filter_write_all_mem rs : forall st r,
  NoDup (map ar_meter_id rs) -> In r rs ->
  filter (for_meter (ar_meter_id r)) (write_all rs st) = [r].
Proof.
  induction rs as [|r0 rs IH]; intros st r Hnd Hr; [destruct Hr|].
  simpl in Hnd. inversion Hnd as [|? ? Hn0 Hnd']; subst. simpl.
  destruct Hr as [<-|Hr].
  - rewrite filter_write_all_other by exact Hn0.
    unfold upsert. simpl. unfold for_meter at 1. rewrite String.eqb_refl.
    f_equal. apply filter_none. intros x Hx. apply filter_In in Hx as [_ Hx].
    unfold for_meter. apply negb_true_iff. exact Hx.
  - apply IH; assumption.
Qed.

Lemma score_batch_fields ds m t now valid r :
  In r (score_batch ds m t now valid) ->
  is_suspicious_flag r = is_suspicious t (anomaly_score r)
  /\ risk_level r = classify_risk (anomaly_score r)
  /\ computed_at r = now /\ model_used r = m
  /\ 0 <= anomaly_score r <= 1.
Proof.
  intros Hr. apply score_batch_shape in Hr as [id [fv [sc [-> Hsc]]]].
  simpl. repeat split; try reflexivity; apply normalize_scores_in_unit in Hsc; apply Hsc.
Qed.

Lemma run_detection_store ds mid th ids now ing ws s o s' :
  run_detection ds mid th ids now ing ws s = (o, s') ->
  store s' = store s
  \/ exists m t valid, store s' = wr_store (write_results ws (score_batch ds m t now valid) (store s)).
Proof.
  unfold run_detection. cbv zeta.
  destruct (resolve_model mid) as [m|];
    [|intros H; inversion H; subst; left; reflexivity].
  destruct (negb _); [intros H; inversion H; subst; left; reflexivity|].
  destruct (valid_meters _) as [|p ps]; [intros H; inversion H; subst; left; reflexivity|].
  intros H. right. do 3 eexists.
  destruct (wr_reachable _); inversion H; subst; reflexivity.
Qed.

Lemma in_write_results_store status rs : forall st x,
  In x (wr_store (write_results status rs st)) -> In x rs \/ In x st.
Proof.
  induction rs as [|r rs IH]; intros st x H; [right; exact H|].
  simpl in H. destruct (status (ar_meter_id r)); simpl in H.
  - apply IH in H as [H|H]; [left; right; exact H|].
    apply in_upsert in H as [->|H]; [left; left; reflexivity|right; exact H].
  - apply IH in H as [H|H]; [left; right; exact H|right; exact H].
  - right. exact H.
Qed.

Lemma in_write_results_written status rs : forall st r,
  In r (wr_written (write_results status rs st)) -> In r rs.
Proof.
  induction rs as [|r0 rs IH]; intros st r H; [destruct H|].
  simpl in H. destruct (status (ar_meter_id r0)); simpl in H.
  - destruct H as [<-|H]; [left; reflexivity|right; exact (IH _ _ H)].
  - right. exact (IH _ _ H).
  - destruct H.
Qed.

(** When the store stays reachable, the results written are those the store
    acknowledges, written in order; no write met an unreachable store, and
    every failed write is logged. *)
Lemma write_results_reachable status rs : forall st,
  wr_reachable (write_results status rs st) = true ->
  wr_written (write_results status rs st)
    = filter (fun r => write_acknowledged status (ar_meter_id r)) rs
  /\ wr_store (write_results status rs st) = write_all (wr_written (write_results status rs st)) st
  /\ (forall r, In r rs -> status (ar_meter_id r) <> StoreUnreachable)
  /\ (forall r, In r rs -> status (ar_meter_id r) = StoreWriteFailure ->
        In (ar_meter_id r) (wr_failed (write_results status rs st))).
Proof.
  induction rs as [|r rs IH]; intros st H.
  - split; [reflexivity|]. split; [reflexivity|]. split; intros ? [].
  - simpl in H |- *. unfold write_acknowledged at 1.
    destruct (status (ar_meter_id r)) eqn:Es; simpl in H |- *.
    + destruct (IH _ H) as (Hw & Hs & Hu & Hf).
      split; [f_equal; exact Hw|]. split; [exact Hs|]. split.
      * intros r' [<-|Hr']; [rewrite Es; discriminate|exact (Hu r' Hr')].
      * intros r' [<-|Hr'] E; [rewrite Es in E; discriminate|exact (Hf r' Hr' E)].
    + destruct (IH _ H) as (Hw & Hs & Hu & Hf).
      split; [exact Hw|]. split; [exact Hs|]. split.
      * intros r' [<-|Hr']; [rewrite Es; discriminate|exact (Hu r' Hr')].
      * intros r' [<-|Hr'] E; [left; reflexivity|right; exact (Hf r' Hr' E)].
    + discriminate H.
Qed.

(** Dropping entries from a store keeps its meter ids distinct. *)
Lemma store_filter_NoDup (keep : AnomalyResult -> bool) (st : Store) :
  NoDup (map ar_meter_id st) -> NoDup (map ar_meter_id (filter keep st)).
Proof.
  induction st as [|x st IH]; intros Hnd; [exact Hnd|].
  cbn [map] in Hnd. apply NoDup_cons_iff in Hnd as [Hx Hst].
  cbn [filter]. destruct (keep x); [|exact (IH Hst)].
  cbn [map]. apply NoDup_cons; [|exact (IH Hst)].
  rewrite in_map_iff. intros (y & Ey & Hy). apply filter_In in Hy as [Hy _].
  apply Hx. rewrite <- Ey. apply in_map, Hy.
Qed.

Lemma upsert_NoDup r st :
  NoDup (map ar_meter_id st) -> NoDup (map ar_meter_id (upsert r st)).
Proof.
  intros H. unfold upsert. simpl. constructor.
  - intros Hin. apply in_map_iff in Hin as [x [Hx Hin]].
    apply filter_In in Hin as [_ Hf]. rewrite Hx, String.eqb_refl in Hf. discriminate.
  - apply store_filter_NoDup. exact H.
Qed.

Lemma write_results_NoDup status rs : forall st,
  NoDup (map ar_meter_id st) ->
  NoDup (map ar_meter_id (wr_store (write_results status rs st))).
Proof.
  induction rs as [|r rs IH]; intros st H; [exact H|].
  simpl. destruct (status (ar_meter_id r)); simpl.
  - apply IH, upsert_NoDup, H.
  - apply IH, H.
  - exact H.
Qed.

(** The store of every reachable state holds at most one entry per meter. *)
Lemma reachable_store_NoDup ds s :
  reachable ds s -> NoDup (map ar_meter_id (store s)).
Proof.
  induction 1 as [|s mid th ids now ing ws o s' Hs IH Hstep]; [constructor|].
  destruct (run_detection_store _ _ _ _ _ _ _ _ _ _ Hstep) as [E|(m & t & valid & E)];
    rewrite E; [exact IH|]. apply write_results_NoDup, IH.
Qed.

Lemma NoDup_filter_for_meter st m :
  NoDup (map ar_meter_id st) -> (List.length (filter (for_meter m) st) <= 1)%nat.
Proof.
  induction st as [|x st IH]; simpl; intros H; [lia|].
  inversion H as [|? ? Hx Hst]; subst.
  destruct (for_meter m x) eqn:Ef; simpl; [|exact (IH Hst)].
  unfold for_meter in Ef. apply String.eqb_eq in Ef.
  rewrite filter_none; [simpl; lia|]. intros y Hy. unfold for_meter.
  apply String.eqb_neq. intros E. apply Hx. rewrite Ef, <- E. apply in_map. exact Hy.
Qed.

Lemma map_filter_comm {A B} (f : A -> B) (p : B -> bool) (l : list A) :
  map f (filter (fun x => p (f x)) l) = filter p (map f l).
Proof.
  induction l as [|a l IH]; [reflexivity|]. simpl.
  destruct (p (f a)); simpl; [f_equal|]; exact IH.
Qed.

Lemma filter_twice {X} (outer inner : X -> bool) (xs : list X) :
  filter outer (filter inner xs) = filter (fun y => inner y && outer y) xs.
Proof.
  induction xs as [|y xs IHxs]; cbn; [reflexivity|].
  destruct (inner y); cbn; [destruct (outer y); [f_equal|]|]; exact IHxs.
Qed.

Lemma in_firstn_in {A} (n : nat) (l : list A) x : In x (firstn n l) -> In x l.
Proof.
  intros H. rewrite <- (firstn_skipn n l). apply in_or_app. left. exact H.
Qed.

Lemma in_get_results s so lim r : In r (get_results s so lim) -> In r (store s).
Proof.
  unfold get_results. intros H. apply in_firstn_in in H.
  destruct so; [apply filter_In in H; apply H|exact H].
Qed.

(** What a completed run does for each requested meter. *)
Lemma completed_run_meters ds mid th ids now ing ws s run s' :
  run_detection ds mid th ids now ing ws s = (inr run, s') ->
  run_threshold run = match th with Some t => t | None => default_threshold end
  /\ meters_analyzed run
     = List.length (filter (fun id => negb (Nat.ltb (List.length (readings_of id ing))
                                                     min_readings)
                                      && write_acknowledged ws id)
                           (resolve_meters ids ing))
  /\ forall m, In m (resolve_meters ids ing) ->
     ((List.length (readings_of m ing) < min_readings)%nat ->
        extract_features (readings_of m ing) = inl InsufficientDataError
        /\ ~ In m (map ar_meter_id (run_results run))
        /\ filter (for_meter m) (store s') = filter (for_meter m) (store s))
     /\ ((min_readings <= List.length (readings_of m ing))%nat ->
        ws m <> StoreUnreachable
        /\ (ws m = WriteOk ->
              count_occ string_dec (map ar_meter_id (run_results run)) m = 1%nat
              /\ exists r, filter (for_meter m) (store s') = [r] /\ In r (run_results run)
                   /\ is_suspicious_flag r = is_suspicious (run_threshold run) (anomaly_score r)
                   /\ computed_at r = now)
        /\ (ws m = StoreWriteFailure ->
              ~ In m (map ar_meter_id (run_results run))
              /\ filter (for_meter m) (store s') = filter (for_meter m) (store s)
              /\ In m (failure_log s'))).
Proof.
  intros H.
  apply run_detection_ok in H
    as (md & t & valid & _ & Et & _ & Ev & _ & Hrch & -> & Hs' & Hf').
  subst valid. set (rs := score_batch ds md t now _) in *.
  destruct (write_results_reachable ws rs (store s) Hrch) as (Hw & Hst & Hu & Hfl).
  cbn [run_results run_threshold meters_analyzed summarize].
  rewrite Hs', Hst, Hf'. rewrite Hw.
  set (W := filter (fun r => write_acknowledged ws (ar_meter_id r)) rs).
  assert (Hids : map ar_meter_id rs
                 = filter (fun id => negb (Nat.ltb (List.length (readings_of id ing))
                                                   min_readings))
                          (resolve_meters ids ing)) by apply run_ids.
  assert (HidsW : map ar_meter_id W
                  = filter (fun id => negb (Nat.ltb (List.length (readings_of id ing))
                                                    min_readings)
                                      && write_acknowledged ws id)
                           (resolve_meters ids ing)).
  { unfold W. rewrite (map_filter_comm ar_meter_id (write_acknowledged ws)), Hids.
    apply filter_twice. }
  assert (HndW : NoDup (map ar_meter_id W))
    by (rewrite HidsW; apply NoDup_filter, resolve_meters_NoDup).
  split; [exact Et|]. split; [rewrite <- HidsW, length_map; reflexivity|].
  intros m Hm. split.
  - intros Hlt. apply Nat.ltb_lt in Hlt.
    assert (Hn : ~ In m (map ar_meter_id W)).
    { rewrite HidsW. intros Hin. apply filter_In in Hin as [_ Hin].
      rewrite Hlt in Hin. discriminate. }
    split; [unfold extract_features; rewrite Hlt; reflexivity|].
    split; [exact Hn|]. apply filter_write_all_other. exact Hn.
  - intros Hge. apply Nat.ltb_ge in Hge.
    assert (Hrs : In m (map ar_meter_id rs)).
    { rewrite Hids. apply filter_In. split; [exact Hm|]. rewrite Hge. reflexivity. }
    apply in_map_iff in Hrs as [r0 [Er0 Hr0]].
    split; [rewrite <- Er0; exact (Hu r0 Hr0)|]. split.
    + intros Eok. assert (Hin : In m (map ar_meter_id W)).
      { rewrite HidsW. apply filter_In. split; [exact Hm|].
        rewrite Hge. unfold write_acknowledged. rewrite Eok. reflexivity. }
      split; [apply (NoDup_count_occ' string_dec); assumption|].
      apply in_map_iff in Hin as [r [<- Hr]]. exists r.
      split; [apply filter_write_all_mem; assumption|]. split; [exact Hr|].
      unfold W in Hr. apply filter_In in Hr as [Hr _].
      apply score_batch_fields in Hr as (Hfl' & _ & Hc & _). split; assumption.
    + intros Ef. assert (Hn : ~ In m (map ar_meter_id W)).
      { rewrite HidsW. intros Hin. apply filter_In in Hin as [_ Hin].
        unfold write_acknowledged in Hin. rewrite Ef, andb_false_r in Hin. discriminate. }
      split; [exact Hn|]. split; [apply filter_write_all_other; exact Hn|].
      apply in_or_app. right. rewrite <- Er0. apply Hfl; [exact Hr0|]. rewrite Er0. exact Ef.
Qed.

(** C2: in a completed run every result is flagged suspicious exactly when
    its normalized score is at least the run's threshold, which defaults to
    0.5; the flag does not follow the tier brackets: with threshold 0.8 a
    meter scored 0.6 is in the high tier and not suspicious. *)
Theorem suspicious_iff_threshold :
  (forall ds mid th ids now ing ws s run s',
     run_detection ds mid th ids now ing ws s = (inr run, s') ->
     run_threshold run = match th with Some t => t | None => default_threshold end
     /\ forall r, In r (run_results run) ->
          (is_suspicious_flag r = true <-> run_threshold run <= anomaly_score r))
  /\ default_threshold = 1 # 2
  /\ (forall m now batch id fv,
        let r := make_result m (4 # 5) now batch (id, fv, 3 # 5) in
        risk_level r = High /\ is_suspicious_flag r = false).
Proof.
  split; [|split; [reflexivity|intros; split; reflexivity]].
  intros ds mid th ids now ing ws s run s' H.
  apply run_detection_ok in H as (m & t & valid & _ & Et & _ & _ & _ & _ & -> & _).
  simpl. split; [exact Et|]. intros r Hr.
  apply in_write_results_written in Hr.
  apply score_batch_fields in Hr as [-> _]. apply Qle_bool_iff.
Qed.

(** C3: every result of a completed run has its score in [0,1]; in every
    state reachable from the empty store by detection runs, every stored
    result and every result returned by GetResults has its score in [0,1]. *)
Theorem anomaly_scores_in_unit ds :
  (forall mid th ids now ing ws s run s',
     run_detection ds mid th ids now ing ws s = (inr run, s') ->
     forall r, In r (run_results run) -> 0 <= anomaly_score r <= 1)
  /\ (forall s, reachable ds s ->
        (forall r, In r (store s) -> 0 <= anomaly_score r <= 1)
        /\ (forall so lim r, In r (get_results s so lim) -> 0 <= anomaly_score r <= 1)).
Proof.
  split.
  { intros mid th ids now ing ws s run s' H r Hr.
    apply run_detection_ok in H as (m & t & valid & _ & _ & _ & _ & _ & _ & -> & _).
    cbn [run_results summarize] in Hr. apply in_write_results_written in Hr.
    apply score_batch_fields in Hr as (_ & _ & _ & _ & Hr). exact Hr. }
  assert (Hst : forall s, reachable ds s ->
             forall r, In r (store s) -> 0 <= anomaly_score r <= 1).
  { intros s Hs. induction Hs as [|s mid th ids now ing ws o s' Hs IH Hstep];
      [intros r []|].
    intros r Hr. destruct (run_detection_store _ _ _ _ _ _ _ _ _ _ Hstep)
      as [E|(m & t & valid & E)]; rewrite E in Hr; [exact (IH r Hr)|].
    apply in_write_results_store in Hr as [Hr|Hr]; [|exact (IH r Hr)].
    apply score_batch_fields in Hr as (_ & _ & _ & _ & Hr). exact Hr. }
  intros s Hs. split; [exact (Hst s Hs)|].
  intros so lim r Hr. apply (Hst s Hs). apply (in_get_results s so lim r Hr).
Qed.

(** C5 (amended): in a completed run, a requested meter with fewer than
    [min_readings] (24) readings fails extraction with
    InsufficientDataError, is not among the analyzed meters and its stored
    results are untouched.  A meter with at least 24 readings met no
    unreachable store; if the store acknowledges its write it is analyzed
    exactly once and has exactly one stored result, from this run; on a
    StoreWriteFailure it is logged, not analyzed, and its stored results are
    untouched.  [meters_analyzed] counts the meters with enough readings
    whose write was acknowledged. *)
Theorem insufficient_data_excluded ds mid th ids now ing ws s run s' :
  run_detection ds mid th ids now ing ws s = (inr run, s') ->
  meters_analyzed run
    = List.length (filter (fun id => negb (Nat.ltb (List.length (readings_of id ing))
                                                    min_readings)
                                     && write_acknowledged ws id)
                          (resolve_meters ids ing))
  /\ forall m, In m (resolve_meters ids ing) ->
     ((List.length (readings_of m ing) < min_readings)%nat ->
        extract_features (readings_of m ing) = inl InsufficientDataError
        /\ ~ In m (map ar_meter_id (run_results run))
        /\ filter (for_meter m) (store s') = filter (for_meter m) (store s))
     /\ ((min_readings <= List.length (readings_of m ing))%nat ->
        ws m <> StoreUnreachable
        /\ (ws m = WriteOk ->
              count_occ string_dec (map ar_meter_id (run_results run)) m = 1%nat
              /\ exists r, filter (for_meter m) (store s') = [r] /\ In r (run_results run))
        /\ (ws m = StoreWriteFailure ->
              ~ In m (map ar_meter_id (run_results run))
              /\ filter (for_meter m) (store s') = filter (for_meter m) (store s)
              /\ In m (failure_log s'))).
Proof.
  intros H. destruct (completed_run_meters _ _ _ _ _ _ _ _ _ _ H) as (_ & Hn & Hm).
  split; [exact Hn|]. intros m Hin. destruct (Hm m Hin) as [Hshort Henough].
  split; [exact Hshort|]. intros Hge. destruct (Henough Hge) as (Hu & Hok & Hf).
  split; [exact Hu|]. split; [|exact Hf].
  intros E. destruct (Hok E) as (Hc & r & Hr & Hin' & _). split; [exact Hc|].
  exists r. split; assumption.
Qed.

(** C6: for a model identifier other than [isolation_forest] and
    [autoencoder], RunDetection fails with UnknownModelError and leaves the
    engine state (stored results and logs) unchanged. *)
Theorem unknown_model_rejected ds mid th ids now ing ws s :
  mid <> "isolation_forest" -> mid <> "autoencoder" ->
  run_detection ds mid th ids now ing ws s = (inl UnknownModelError, s).
Proof.
  intros H1 H2. unfold run_detection, resolve_model.
  destruct (String.eqb_spec mid "isolation_forest"); [contradiction|].
  destruct (String.eqb_spec mid "autoencoder"); [contradiction|].
  reflexivity.
Qed.

(** C7 (amended): in every state reachable from the empty store by
    detection runs each meter has at most one stored result.  After two
    completed runs in succession over the same meters (any models and
    thresholds), a meter with enough readings whose second write was
    acknowledged has exactly one stored result, the second run's; if its
    second write failed, its stored results are those left by the first
    run, which are exactly the first run's result when that write was
    acknowledged. *)
Theorem rerun_latest_wins ds :
  (forall s, reachable ds s ->
     NoDup (map ar_meter_id (store s))
     /\ forall m, (List.length (filter (for_meter m) (store s)) <= 1)%nat)
  /\ (forall mid1 mid2 th1 th2 ids now1 now2 ing ws1 ws2 s run1 s1 run2 s2,
       run_detection ds mid1 th1 ids now1 ing ws1 s = (inr run1, s1) ->
       run_detection ds mid2 th2 ids now2 ing ws2 s1 = (inr run2, s2) ->
       run_threshold run2 = match th2 with Some t => t | None => default_threshold end
       /\ forall m, In m (resolve_meters ids ing) ->
          (min_readings <= List.length (readings_of m ing))%nat ->
          (ws2 m = WriteOk ->
             exists r, filter (for_meter m) (store s2) = [r]
               /\ In r (run_results run2)
               /\ is_suspicious_flag r = is_suspicious (run_threshold run2) (anomaly_score r)
               /\ computed_at r = now2)
          /\ (ws2 m = StoreWriteFailure ->
                filter (for_meter m) (store s2) = filter (for_meter m) (store s1))
          /\ (ws1 m = WriteOk ->
                exists r, filter (for_meter m) (store s1) = [r]
                  /\ In r (run_results run1) /\ computed_at r = now1)).
Proof.
  split.
  - intros s Hs. pose proof (reachable_store_NoDup ds s Hs) as Hnd.
    split; [exact Hnd|]. intros m. apply NoDup_filter_for_meter, Hnd.
  - intros mid1 mid2 th1 th2 ids now1 now2 ing ws1 ws2 s run1 s1 run2 s2 H1 H2.
    destruct (completed_run_meters _ _ _ _ _ _ _ _ _ _ H1) as (_ & _ & Hm1).
    destruct (completed_run_meters _ _ _ _ _ _ _ _ _ _ H2) as (Ht2 & _ & Hm2).
    split; [exact Ht2|]. intros m Hin Hge.
    destruct (proj2 (Hm1 m Hin) Hge) as (_ & Hok1 & _).
    destruct (proj2 (Hm2 m Hin) Hge) as (_ & Hok2 & Hf2).
    split; [intros E; destruct (Hok2 E) as (_ & r & Hr); exists r; exact Hr|].
    split; [intros E; apply (Hf2 E)|].
    intros E. destruct (Hok1 E) as (_ & r & Hr & Hin1 & _ & Hc). exists r.
    split; [exact Hr|]. split; assumption.
Qed.

(** C9: GetResults without arguments means [suspicious_only = false],
    [limit = 100] (also the defaults of [anomalyAPI.getResults]); with
    [suspicious_only = true] only suspicious results are returned, and
    never more than [limit] results. *)
Theorem get_results_defaults_filter :
  getResults_params None None = (false, 100%nat)
  /\ (forall s, GetResults s None None = get_results s false 100)
  /\ (forall s lim r, In r (get_results s true lim) -> is_suspicious_flag r = true)
  /\ (forall s so lim, (List.length (get_results s so lim) <= lim)%nat).
Proof.
  split; [reflexivity|]. split; [reflexivity|]. split.
  - intros s lim r Hr. unfold get_results in Hr. apply in_firstn_in in Hr.
    apply filter_In in Hr. apply Hr.
  - intros s so lim. unfold get_results. apply firstn_le_length.
Qed.

End EngineProofs.

Module FeatureProofs.
Import Features.

(** C8 (amended): for a meter whose total consumption is 0 (e.g. all
    readings zero): with at least [min_readings] (24) readings, extraction
    succeeds with [night_ratio = peak_ratio = weekend_ratio = 0]; with fewer,
    it fails with InsufficientDataError like any short meter. *)
Theorem zero_consumption_ratios (rs : list Reading) :
  sumQ (map consumption_kwh rs) == 0 ->
  ((min_readings <= List.length rs)%nat ->
     exists fv, extract_features rs = inr fv
       /\ night_ratio fv = 0 /\ peak_ratio fv = 0 /\ weekend_ratio fv = 0)
  /\ ((List.length rs < min_readings)%nat ->
        extract_features rs = inl InsufficientDataError).
Proof.
  intros Hz. split.
  - intros Hlen. unfold extract_features.
    apply Nat.ltb_ge in Hlen. rewrite Hlen. cbv zeta.
    eexists. split; [reflexivity|]. unfold ratio.
    rewrite (proj2 (Qeq_bool_iff _ _) Hz). repeat split; reflexivity.
  - intros Hlen. unfold extract_features.
    apply Nat.ltb_lt in Hlen. rewrite Hlen. reflexivity.
Qed.

Lemma zero_consumption_ratios_witness :
  sumQ (map consumption_kwh (Samples.mk_readings "Z" 24 (fun _ => 0%Q))) == 0
  /\ (exists fv, extract_features (Samples.mk_readings "Z" 24 (fun _ => 0%Q)) = inr fv
       /\ night_ratio fv = 0 /\ peak_ratio fv = 0 /\ weekend_ratio fv = 0)
  /\ sumQ (map consumption_kwh (Samples.mk_readings "Z" 5 (fun _ => 0%Q))) == 0
  /\ extract_features (Samples.mk_readings "Z" 5 (fun _ => 0%Q)) = inl InsufficientDataError.
Proof.
  assert (H1 : sumQ (map consumption_kwh (Samples.mk_readings "Z" 24 (fun _ => 0%Q))) == 0)
    by (apply Qeq_bool_iff; vm_compute; reflexivity).
  assert (H2 : (min_readings <= List.length (Samples.mk_readings "Z" 24 (fun _ => 0%Q)))%nat)
    by (apply Nat.leb_le; vm_compute; reflexivity).
  assert (H3 : sumQ (map consumption_kwh (Samples.mk_readings "Z" 5 (fun _ => 0%Q))) == 0)
    by (apply Qeq_bool_iff; vm_compute; reflexivity).
  assert (H4 : (List.length (Samples.mk_readings "Z" 5 (fun _ => 0%Q)) < min_readings)%nat)
    by (apply Nat.ltb_lt; vm_compute; reflexivity).
  split; [exact H1|]. split; [exact (proj1 (zero_consumption_ratios _ H1) H2)|].
  split; [exact H3|]. exact (proj2 (zero_consumption_ratios _ H3) H4).
Defined.

(** C8 counterexample: a meter with 5 readings, all zero, gets no ratios:
    extraction fails with InsufficientDataError. *)
Lemma zero_consumption_short_meter_error :
  sumQ (map consumption_kwh (Samples.mk_readings "Z" 5 (fun _ => 0%Q))) == 0
  /\ extract_features (Samples.mk_readings "Z" 5 (fun _ => 0%Q)) = inl InsufficientDataError
  /\ ~ exists fv, extract_features (Samples.mk_readings "Z" 5 (fun _ => 0%Q)) = inr fv.
Proof.
  split; [apply Qeq_bool_iff; vm_compute; reflexivity|].
  split; [vm_compute; reflexivity|].
  intros [fv H]. vm_compute in H. discriminate H.
Qed.

End FeatureProofs.

Module EngineWitnesses.
Import Features Classifier Engine Samples EngineProofs.

Lemma In_by_existsb (m : string) (l : list string) :
  existsb (String.eqb m) l = true -> In m l.
Proof.
  intros H. apply existsb_exists in H as [x [Hx E]].
  apply String.eqb_eq in E. subst. exact Hx.
Qed.

Lemma suspicious_iff_threshold_witness :
  exists run s',
    run_detection night_scorer "isolation_forest" None None 0%Z ingest all_writes_ok
      initial_state = (inr run, s')
    /\ run_threshold run = default_threshold
    /\ forall r, In r (run_results run) ->
         (is_suspicious_flag r = true <-> run_threshold run <= anomaly_score r).
Proof.
  destruct (run_detection night_scorer "isolation_forest" None None 0%Z ingest all_writes_ok
              initial_state)
    as [[e|run] s'] eqn:E; [vm_compute in E; discriminate E|].
  exists run, s'. split; [reflexivity|].
  exact (proj1 suspicious_iff_threshold night_scorer _ _ _ _ _ _ _ run s' E).
Defined.

Lemma anomaly_scores_in_unit_witness :
  exists run s',
    run_detection night_scorer "autoencoder" (Some (3 # 4)) None 1%Z ingest
      (write_fails_for "A") initial_state = (inr run, s')
    /\ (forall r, In r (run_results run) -> 0 <= anomaly_score r <= 1)
    /\ (forall r, In r (store s') -> 0 <= anomaly_score r <= 1)
    /\ (forall so lim r, In r (get_results s' so lim) -> 0 <= anomaly_score r <= 1).
Proof.
  destruct (run_detection night_scorer "autoencoder" (Some (3 # 4)) None 1%Z ingest
              (write_fails_for "A") initial_state)
    as [[e|run] s'] eqn:E; [vm_compute in E; discriminate E|].
  exists run, s'. split; [reflexivity|].
  pose proof (anomaly_scores_in_unit night_scorer) as [H1 H2].
  assert (Hr : reachable night_scorer s') by (eapply reach_run; [apply reach_init|exact E]).
  split; [exact (H1 _ _ _ _ _ _ _ _ _ E)|]. exact (H2 s' Hr).
Defined.

(** Meter C is short, the write of meter A fails, meter B is written. *)
Lemma insufficient_data_excluded_witness :
  exists run s',
    run_detection night_scorer "isolation_forest" None None 0%Z ingest
      (write_fails_for "A") initial_state = (inr run, s')
    /\ In "C" (resolve_meters None ingest)
    /\ (List.length (readings_of "C" ingest) < min_readings)%nat
    /\ In "A" (resolve_meters None ingest)
    /\ (min_readings <= List.length (readings_of "A" ingest))%nat
    /\ In "B" (resolve_meters None ingest)
    /\ (min_readings <= List.length (readings_of "B" ingest))%nat
    /\ ~ In "C" (map ar_meter_id (run_results run))
    /\ ~ In "A" (map ar_meter_id (run_results run))
    /\ In "A" (failure_log s')
    /\ count_occ string_dec (map ar_meter_id (run_results run)) "B" = 1%nat.
Proof.
  destruct (run_detection night_scorer "isolation_forest" None None 0%Z ingest
              (write_fails_for "A") initial_state)
    as [[e|run] s'] eqn:E; [vm_compute in E; discriminate E|].
  assert (HC : In "C" (resolve_meters None ingest))
    by (apply In_by_existsb; vm_compute; reflexivity).
  assert (HA : In "A" (resolve_meters None ingest))
    by (apply In_by_existsb; vm_compute; reflexivity).
  assert (HB : In "B" (resolve_meters None ingest))
    by (apply In_by_existsb; vm_compute; reflexivity).
  assert (HlC : (List.length (readings_of "C" ingest) < min_readings)%nat)
    by (apply Nat.ltb_lt; vm_compute; reflexivity).
  assert (HlA : (min_readings <= List.length (readings_of "A" ingest))%nat)
    by (apply Nat.leb_le; vm_compute; reflexivity).
  assert (HlB : (min_readings <= List.length (readings_of "B" ingest))%nat)
    by (apply Nat.leb_le; vm_compute; reflexivity).
  destruct (insufficient_data_excluded _ _ _ _ _ _ _ _ _ _ E) as [_ Hm].
  destruct (proj2 (Hm "A" HA) HlA) as (_ & _ & HfA).
  destruct (HfA eq_refl) as (HnA & _ & HlogA).
  destruct (proj2 (Hm "B" HB) HlB) as (_ & HokB & _).
  exists run, s'. split; [reflexivity|].
  do 6 (split; [assumption|]).
  split; [exact (proj1 (proj2 (proj1 (Hm "C" HC) HlC)))|].
  split; [exact HnA|]. split; [exact HlogA|].
  exact (proj1 (HokB eq_refl)).
Defined.

(** C5 counterexample: meter A has 48 readings, but its result write fails
    with a StoreWriteFailure: the completed run has no result for A, does
    not count it, and the store holds no result for A. *)
Lemma write_failure_meter_not_analyzed :
  exists run s',
    run_detection night_scorer "isolation_forest" None None 0%Z ingest
      (write_fails_for "A") initial_state = (inr run, s')
    /\ (min_readings <= List.length (readings_of "A" ingest))%nat
    /\ ~ In "A" (map ar_meter_id (run_results run))
    /\ meters_analyzed run = 1%nat
    /\ filter (for_meter "A") (store s') = [].
Proof.
  destruct (run_detection night_scorer "isolation_forest" None None 0%Z ingest
              (write_fails_for "A") initial_state)
    as [[e|run] s'] eqn:E; [vm_compute in E; discriminate E|].
  exists run, s'. split; [reflexivity|].
  vm_compute in E. injection E as <- <-.
  split; [apply Nat.leb_le; vm_compute; reflexivity|].
  split; [vm_compute; intros [H|H]; [discriminate H|exact H]|].
  split; vm_compute; reflexivity.
Qed.

Lemma unknown_model_rejected_witness :
  ("random_forest" <> "isolation_forest" /\ "random_forest" <> "autoencoder")
  /\ run_detection night_scorer "random_forest" None None 0%Z ingest all_writes_ok
       initial_state = (inl UnknownModelError, initial_state).
Proof.
  assert (H1 : "random_forest" <> "isolation_forest") by discriminate.
  assert (H2 : "random_forest" <> "autoencoder") by discriminate.
  split; [split; assumption|].
  exact (unknown_model_rejected night_scorer _ None None 0%Z ingest all_writes_ok
           initial_state H1 H2).
Defined.

(** Two runs: the second (threshold 0.8) rewrites meter A's result and fails
    to write meter B's, which stays the first run's. *)
Lemma rerun_latest_wins_witness :
  exists run1 s1 run2 s2,
    run_detection night_scorer "isolation_forest" None None 0%Z ingest all_writes_ok
      initial_state = (inr run1, s1)
    /\ run_detection night_scorer "autoencoder" (Some (4 # 5)) None 1%Z ingest
         (write_fails_for "B") s1 = (inr run2, s2)
    /\ NoDup (map ar_meter_id (store s2))
    /\ (exists r, filter (for_meter "A") (store s2) = [r] /\ In r (run_results run2)
          /\ computed_at r = 1%Z)
    /\ (exists r, filter (for_meter "B") (store s2) = [r] /\ In r (run_results run1)
          /\ computed_at r = 0%Z).
Proof.
  destruct (run_detection night_scorer "isolation_forest" None None 0%Z ingest all_writes_ok
              initial_state)
    as [[e|run1] s1] eqn:E1; [vm_compute in E1; discriminate E1|].
  destruct (run_detection night_scorer "autoencoder" (Some (4 # 5)) None 1%Z ingest
              (write_fails_for "B") s1)
    as [[e|run2] s2] eqn:E2; [vm_compute in E2; discriminate E2|].
  destruct (rerun_latest_wins night_scorer) as [Hinv Hrr].
  assert (Hs2 : reachable night_scorer s2)
    by (eapply reach_run; [eapply reach_run; [apply reach_init|exact E1]|exact E2]).
  destruct (Hrr _ _ _ _ _ _ _ _ _ _ _ _ _ _ _ E1 E2) as [_ Hm].
  assert (HA : In "A" (resolve_meters None ingest))
    by (apply In_by_existsb; vm_compute; reflexivity).
  assert (HB : In "B" (resolve_meters None ingest))
    by (apply In_by_existsb; vm_compute; reflexivity).
  assert (HlA : (min_readings <= List.length (readings_of "A" ingest))%nat)
    by (apply Nat.leb_le; vm_compute; reflexivity).
  assert (HlB : (min_readings <= List.length (readings_of "B" ingest))%nat)
    by (apply Nat.leb_le; vm_compute; reflexivity).
  destruct (Hm "A" HA HlA) as (HokA & _ & _).
  destruct (Hm "B" HB HlB) as (_ & HfB & HokB).
  exists run1, s1, run2, s2. split; [reflexivity|]. split; [exact E2|].
  split; [exact (proj1 (Hinv s2 Hs2))|]. split.
  - destruct (HokA eq_refl) as (r & Hr & Hin & _ & Hc). exists r. split; [|split]; assumption.
  - destruct (HokB eq_refl) as (r & Hr & Hin & Hc). exists r.
    rewrite (HfB eq_refl). split; [|split]; assumption.
Defined.

(** C7 counterexample: two completed runs over the same meters with
    different thresholds, the second one's write for meter B failing: B's
    only stored result afterwards holds the first run's values
    ([computed_at = 0], threshold 0.5), not the second run's. *)
Lemma rerun_failed_write_keeps_first :
  exists run1 s1 run2 s2,
    run_detection night_scorer "isolation_forest" None None 0%Z ingest all_writes_ok
      initial_state = (inr run1, s1)
    /\ run_detection night_scorer "isolation_forest" (Some (4 # 5)) None 1%Z ingest
         (write_fails_for "B") s1 = (inr run2, s2)
    /\ (min_readings <= List.length (readings_of "B" ingest))%nat
    /\ ~ In "B" (map ar_meter_id (run_results run2))
    /\ exists r, filter (for_meter "B") (store s2) = [r]
         /\ computed_at r = 0%Z /\ ~ In r (run_results run2).
Proof.
  destruct (run_detection night_scorer "isolation_forest" None None 0%Z ingest all_writes_ok
              initial_state)
    as [[e|run1] s1] eqn:E1; [vm_compute in E1; discriminate E1|].
  destruct (run_detection night_scorer "isolation_forest" (Some (4 # 5)) None 1%Z ingest
              (write_fails_for "B") s1)
    as [[e|run2] s2] eqn:E2; [vm_compute in E2; discriminate E2|].
  exists run1, s1, run2, s2. split; [reflexivity|]. split; [exact E2|].
  vm_compute in E1. injection E1 as <- <-. vm_compute in E2. injection E2 as <- <-.
  split; [apply Nat.leb_le; vm_compute; reflexivity|].
  split; [vm_compute; intros [H|H]; [discriminate H|exact H]|].
  vm_compute. eexists. split; [reflexivity|]. split; [reflexivity|].
  intros [H|H]; [discriminate H|exact H].
Qed.

Lemma get_results_defaults_filter_witness :
  In (sample_result "B" 1 true) (get_results sample_state true 10)
  /\ is_suspicious_flag (sample_result "B" 1 true) = true
  /\ (List.length (get_results sample_state true 10) <= 10)%nat.
Proof.
  assert (H : In (sample_result "B" 1 true) (get_results sample_state true 10))
    by (left; reflexivity).
  split; [exact H|]. split.
  - exact (proj1 (proj2 (proj2 get_results_defaults_filter)) _ _ _ H).
  - exact (proj2 (proj2 (proj2 get_results_defaults_filter)) _ _ _).
Defined.

End EngineWitnesses.

(* ------------------------------------------------------------------------- *)
(** ** Frontend properties *)

Module FrontendProofs.
Import Js DataTable StatCard Theme Api Hooks Pages.

Lemma truthy_nonempty_str (s : string) : s <> EmptyString -> truthy (Str s) = true.
Proof.
  intros H. cbn. destruct (String.eqb_spec s EmptyString); [contradiction | reflexivity].
Qed.

Lemma error_message_truthy (d : jsval) (msg : string) :
  msg <> EmptyString -> truthy (error_message d msg) = true.
Proof.
  intros H. unfold error_message, or_else.
  destruct (truthy d) eqn:E; [exact E | apply truthy_nonempty_str, H].
Qed.

Lemma Qle_bool_false_iff (a b : Q) : Qle_bool a b = false <-> b < a.
Proof.
  split.
  - intros H. apply Qnot_le_lt. intros Hle. apply Qle_bool_iff in Hle. congruence.
  - intros H. destruct (Qle_bool a b) eqn:E; [|reflexivity].
    apply Qle_bool_iff in E. exfalso. lra.
Qed.

Ltac qle_bool_facts :=
  repeat match goal with
  | H : Qle_bool _ _ = true |- _ => apply Qle_bool_iff in H
  | H : Qle_bool _ _ = false |- _ => apply Qle_bool_false_iff in H
  end.

Lemma length_filter_orb {A} (f g : A -> bool) (l : list A) :
  (forall x, f x && g x = false) ->
  List.length (filter (fun x => f x || g x) l) =
    (List.length (filter f l) + List.length (filter g l))%nat.
Proof.
  intros H. induction l as [|x l IH]; cbn; [reflexivity|].
  specialize (H x). destruct (f x), (g x); cbn in *; try discriminate; lia.
Qed.

Lemma length_filter_le {A} (f : A -> bool) (l : list A) :
  (List.length (filter f l) <= List.length l)%nat.
Proof.
  induction l as [|x l IH]; cbn; [lia|]. destruct (f x); cbn; lia.
Qed.

Lemma high_critical_exclusive (r : result_row) :
  is_str "high" (row_risk_level r) && is_str "critical" (row_risk_level r) = false.
Proof.
  destruct (row_risk_level r); try reflexivity. cbn.
  destruct (String.eqb_spec s "high") as [->|]; reflexivity.
Qed.

Lemma substring0_prefix (n : nat) (s : string) :
  exists u, s = String.substring 0 n s ++ u /\
            String.length (String.substring 0 n s) = Nat.min n (String.length s).
Proof.
  revert n. induction s as [|c s IH]; intros [|n]; cbn.
  - exists EmptyString. auto.
  - exists EmptyString. auto.
  - exists (String c s). auto.
  - destruct (IH n) as [u [Hu Hl]]. exists u. rewrite <- Hu, Hl. auto.
Qed.

Lemma substring0_short (n : nat) (s : string) :
  (String.length s <= n)%nat -> String.substring 0 n s = s.
Proof.
  revert n. induction s as [|c s IH]; intros [|n] H; cbn in *; try reflexivity; try lia.
  rewrite IH; [reflexivity | lia].
Qed.

Lemma ends_with_iff (suffix s : string) :
  ends_with suffix s = true <-> exists pre, s = pre ++ suffix.
Proof.
  split.
  - induction s as [|c s IH]; intros H.
    + destruct suffix; cbn in H; [exists EmptyString; reflexivity | discriminate].
    + change (String.eqb (String c s) suffix || ends_with suffix s = true) in H.
      apply orb_true_iff in H as [H|H].
      * apply String.eqb_eq in H. rewrite <- H. exists EmptyString. reflexivity.
      * destruct (IH H) as [pre ->]. exists (String c pre). reflexivity.
  - intros [pre ->]. induction pre as [|c pre IH].
    + destruct suffix; [reflexivity|].
      change (String.eqb (String a suffix) (String a suffix) || ends_with (String a suffix) suffix = true).
      rewrite String.eqb_refl. reflexivity.
    + change (String.eqb (String c (pre ++ suffix)) suffix || ends_with suffix (pre ++ suffix) = true).
      rewrite IH. apply orb_true_r.
Qed.

Lemma math_round_percent (loaded t : Q) :
  0 <= loaded -> loaded <= t -> ~ t == 0 ->
  (0 <= math_round (loaded * 100 / t) <= 100)%Z.
Proof.
  intros H0 H1 Ht.
  assert (Hpos : 0 < t) by (apply Qle_lt_or_eq in H1 as [H1|H1]; [lra|];
                            apply Qle_lt_or_eq in H0 as [H0|H0]; [lra|];
                            exfalso; apply Ht; rewrite <- H1, <- H0; reflexivity).
  assert (Hlo : 0 <= loaded * 100 / t) by (apply Qle_shift_div_l; [exact Hpos | lra]).
  assert (Hhi : loaded * 100 / t <= 100) by (apply Qle_shift_div_r; [exact Hpos | lra]).
  unfold math_round. generalize dependent (loaded * 100 / t). intros x Hlo Hhi. split.
  - change 0%Z with (Qfloor (1 # 2)). apply Qfloor_resp_le. lra.
  - change 100%Z with (Qfloor (201 # 2)). apply Qfloor_resp_le. lra.
Qed.

Lemma fold_on_progress_fields (events : list (Q * option Q)) (st : upload_state) :
  up_loading (fold_left on_progress_event events st) = up_loading st /\
  up_error (fold_left on_progress_event events st) = up_error st /\
  up_result (fold_left on_progress_event events st) = up_result st.
Proof.
  revert st. induction events as [|ev events IH]; intros st; cbn; [auto|].
  destruct (IH (on_progress_event st ev)) as (H1 & H2 & H3). rewrite H1, H2, H3.
  unfold on_progress_event. destruct (upload_progress true (fst ev) (snd ev)); auto.
Qed.

Lemma fold_on_progress_range (events : list (Q * option Q)) (st : upload_state) :
  Forall (fun ev => 0 <= fst ev /\ forall t, snd ev = Some t -> fst ev <= t) events ->
  (0 <= up_progress st <= 100)%Z ->
  (0 <= up_progress (fold_left on_progress_event events st) <= 100)%Z.
Proof.
  revert st. induction events as [|[loaded total] events IH]; intros st Hev Hst; cbn; [exact Hst|].
  inversion Hev as [|? ? [Hl Ht] Hrest]; subst. apply IH; [exact Hrest|].
  unfold on_progress_event, upload_progress; cbn.
  destruct total as [t|]; [|exact Hst].
  destruct (Qeq_bool t 0) eqn:E; cbn; [exact Hst|].
  apply math_round_percent; [exact Hl | apply Ht; reflexivity |].
  intros Heq. apply Qeq_bool_iff in Heq. congruence.
Qed.

Lemma selectedModel_known (changes : list model_option) :
  selectedModel changes = "isolation_forest" \/ selectedModel changes = "autoencoder".
Proof.
  unfold selectedModel.
  assert (Hgen : forall acc, acc = "isolation_forest" \/ acc = "autoencoder" ->
            fold_left (fun _ o => option_value o) changes acc = "isolation_forest" \/
            fold_left (fun _ o => option_value o) changes acc = "autoencoder").
  { induction changes as [|o changes IH]; intros acc Hacc; cbn; [exact Hacc|].
    apply IH. destruct o; cbn; auto. }
  apply Hgen. left. reflexivity.
Qed.

Lemma chart_points_length (k : nat) (rs : list reading_json) :
  List.length (chart_points k rs) = List.length rs.
Proof.
  revert k. induction rs as [|r rs IH]; intros k; cbn; [reflexivity|]. rewrite IH. reflexivity.
Qed.

Lemma chart_points_anomaly_indices (k : nat) (rs : list reading_json) :
  map cp_index (anomalyPoints (chart_points k rs)) =
    filter (fun i => match nth_error rs (i - k) with
                     | Some r => truthy (rd_is_anomaly r)
                     | None => false
                     end) (seq k (List.length rs)).
Proof.
  revert k. induction rs as [|r rs IH]; intros k; cbn; [reflexivity|].
  unfold anomalyPoints in *. cbn. rewrite Nat.sub_diag. cbn.
  assert (Htail :
    filter (fun i => match nth_error (r :: rs) (i - k) with
                     | Some r0 => truthy (rd_is_anomaly r0) | None => false end)
           (seq (S k) (List.length rs)) =
    filter (fun i => match nth_error rs (i - S k) with
                     | Some r0 => truthy (rd_is_anomaly r0) | None => false end)
           (seq (S k) (List.length rs))).
  { apply filter_ext_in. intros i Hi. apply in_seq in Hi.
    replace (i - k)%nat with (S (i - S k)) by lia. reflexivity. }
  rewrite Htail, <- IH.
  destruct (truthy (rd_is_anomaly r)); reflexivity.
Qed.

(** X1. [handleSort]: a second click on the same column flips the
    direction; a click on another column sorts it ascending. *)
Theorem handleSort_second_click (key : string) (sc : sort_config) :
  handleSort key (handleSort key sc) =
    {| sort_key := Some key;
       sort_direction := match sort_direction (handleSort key sc) with
                         | Asc => Desc | Desc => Asc end |} /\
  (forall key', key' <> key ->
     handleSort key' (handleSort key sc) = {| sort_key := Some key'; sort_direction := Asc |}).
Proof.
  destruct sc as [[k|] [|]]; unfold handleSort; cbn;
    try destruct (String.eqb_spec k key); cbn; rewrite ?String.eqb_refl;
    (split; [reflexivity|]); intros key' Hne;
    destruct (String.eqb_spec key key'); congruence.
Qed.

(** X2. The [sortedData] comparator puts [null] and [undefined] after every
    other value in both directions: a nullish [a] compares as [1] against
    anything, and any value compared with a nullish [b] gives [-1], or [1]
    when both are nullish (so two nullish values compare as [1] both ways). *)
Theorem sort_compare_nullish_last (d : direction) (v w : jsval) :
  nullish v = true ->
  sort_compare d v w = CmpConst 1%Z /\
  sort_compare d w v = (if nullish w then CmpConst 1%Z else CmpConst (-1)%Z).
Proof.
  intros Hv. unfold sort_compare. rewrite Hv. split; [reflexivity|].
  destruct (nullish w); reflexivity.
Qed.

(** X3. For non-nullish values, the descending comparator is the ascending
    one with its arguments swapped (numbers and [localeCompare] alike). *)
Theorem sort_compare_desc_swaps (v w : jsval) :
  nullish v = false -> nullish w = false ->
  sort_compare Desc v w = sort_compare Asc w v.
Proof.
  intros Hv Hw. unfold sort_compare. rewrite Hv, Hw.
  destruct v, w; try discriminate; reflexivity.
Qed.

(** X4. Two numbers are compared by their difference: ascending gives a
    negative value exactly when [a < b] and zero exactly when [a = b], and
    the descending result is its opposite. *)
Theorem sort_compare_numbers (a b : Q) :
  exists x y,
    sort_compare Asc (Num a) (Num b) = CmpDiff x /\
    sort_compare Desc (Num a) (Num b) = CmpDiff y /\
    y == - x /\ (x < 0 <-> a < b) /\ (x == 0 <-> a == b).
Proof.
  exists (a - b), (b - a). cbn. split; [reflexivity|]. split; [reflexivity|].
  split; [ring|]. split; split; intros; lra.
Qed.

(** X5. A column with no [render] and no [risk]/[score]/[boolean] type: a
    number is shown with [toFixed(column.decimals || 2)]: with [decimals]
    truthy, [toFixed(decimals)]; with an absent or zero [decimals], two
    digits; the cell shows ['-'] exactly for [null] and [undefined] (and
    the string ['-']), not for [0], [''] or [false]. *)
Theorem renderCell_plain_column (row : string -> jsval) (c : column) :
  col_render c = false ->
  existsb (fun t => is_str t (col_type c)) ["risk"; "score"; "boolean"] = false ->
  (forall q, row (col_key c) = Num q ->
     renderCell row c = FixedText q (or_else (col_decimals c) (Num 2))) /\
  (truthy (col_decimals c) = true ->
     forall q, row (col_key c) = Num q -> renderCell row c = FixedText q (col_decimals c)) /\
  (truthy (col_decimals c) = false ->
     forall q, row (col_key c) = Num q -> renderCell row c = FixedText q (Num 2)) /\
  (renderCell row c = Plain (Str "-") <->
     nullish (row (col_key c)) = true \/ row (col_key c) = Str "-").
Proof.
  intros Hr Ht. cbn in Ht.
  apply orb_false_iff in Ht as [H1 Ht]. apply orb_false_iff in Ht as [H2 Ht].
  apply orb_false_iff in Ht as [H3 _].
  unfold renderCell. rewrite Hr, H1, H2, H3. split; [|split; [|split]].
  - intros q Hq. rewrite Hq. reflexivity.
  - intros Hd q Hq. rewrite Hq. unfold or_else. rewrite Hd. reflexivity.
  - intros Hd q Hq. rewrite Hq. unfold or_else. rewrite Hd. reflexivity.
  - destruct (row (col_key c)) as [| |b|q|s]; cbn.
    + split; auto.
    + split; auto.
    + split; [discriminate | intros [H|H]; discriminate].
    + split; [discriminate | intros [H|H]; discriminate].
    + split; [intros H; right; congruence | intros [H|H]; [discriminate | congruence]].
Qed.

(** X6. The [ScoreBar] colour is monotone in the score: a higher score is
    never shown in a milder colour (green, then amber, then red). *)
Theorem score_color_monotone (s t : Q) :
  s <= t -> (color_rank (score_color s) <= color_rank (score_color t))%nat.
Proof.
  intros H. unfold score_color.
  destruct (Qle_bool (7 # 10) s) eqn:E1, (Qle_bool (7 # 10) t) eqn:E2,
           (Qle_bool (2 # 5) s) eqn:E3, (Qle_bool (2 # 5) t) eqn:E4;
    cbn; try lia; qle_bool_facts; lra.
Qed.

(** X7. [formatValue]: a number of at least one million is shown as
    millions with a mantissa of at least 1, one in [[1000, 10^6)] as
    thousands with a mantissa in [[1, 1000)]; smaller numbers (all negative
    ones included) are never abbreviated: integers go through
    [toLocaleString] and the rest through [toFixed(1)]; a non-number is
    returned unchanged. *)
Theorem formatValue_ranges (v : jsval) :
  match formatValue v with
  | Millions m => exists q, v = Num q /\ 1 <= m /\ q == m * (1000000 # 1)
  | Thousands k => exists q, v = Num q /\ 1 <= k /\ k < 1000 /\ q == k * (1000 # 1)
  | Localized z => exists q, v = Num q /\ q < 1000 /\ q == inject_Z z
  | Fixed1 q => v = Num q /\ q < 1000 /\ is_integer q = false
  | Unchanged w => w = v /\ forall q, v <> Num q
  end.
Proof.
  destruct v as [| |b|q|s]; cbn;
    try (split; [reflexivity | intros q H; discriminate H]).
  destruct (Qle_bool (1000000 # 1) q) eqn:E1; qle_bool_facts.
  - exists q. split; [reflexivity|]. split.
    + apply Qle_shift_div_l; [reflexivity | lra].
    + field.
  - destruct (Qle_bool (1000 # 1) q) eqn:E2; qle_bool_facts.
    + exists q. split; [reflexivity|]. split; [|split].
      * apply Qle_shift_div_l; [reflexivity | lra].
      * apply Qlt_shift_div_r; [reflexivity | lra].
      * field.
    + destruct (is_integer q) eqn:E3.
      * exists q. split; [reflexivity|]. split; [exact E2|].
        unfold is_integer in E3. apply Z.eqb_eq in E3.
        pose proof (Z.div_mod (Qnum q) (Zpos (Qden q)) ltac:(lia)) as Hdm.
        rewrite E3, Z.add_0_r in Hdm.
        destruct q as [n d]. unfold Qeq, inject_Z. cbn in *.
        rewrite Z.mul_1_r, Z.mul_comm. exact Hdm.
      * split; [reflexivity | split; [exact E2 | exact E3]].
Qed.

(** X8. [toggleTheme] always lands on ['dark'] or ['light'] and flips
    [isDark]; toggling twice restores the theme exactly when it was
    ['dark'] or ['light'] (any other stored theme becomes ['light']). *)
Theorem toggleTheme_cycle (t : string) :
  (toggleTheme t = "dark" \/ toggleTheme t = "light") /\
  isDark (toggleTheme t) = negb (isDark t) /\
  (toggleTheme (toggleTheme t) = t <-> t = "dark" \/ t = "light").
Proof.
  unfold toggleTheme, isDark. destruct (String.eqb_spec t "dark") as [->|Hne]; cbn.
  - split; [right; reflexivity|]. split; [reflexivity|]. split; [auto | reflexivity].
  - split; [left; reflexivity|]. split; [reflexivity|]. split.
    + intros H. right. symmetry. exact H.
    + intros [H|H]; [contradiction | symmetry; exact H].
Qed.

(** X9. Every theme of a session (initial, toggled, or set on the Settings
    page) is non-empty, so writing it to storage and reloading restores it:
    [saved || 'dark'] gives it back. *)
Theorem theme_reload_restores (saved : option string) (t : string) :
  theme_reachable saved t -> initial_theme (Some t) = t.
Proof.
  intros H. cbn. destruct (String.eqb_spec t EmptyString) as [->|]; [|reflexivity].
  exfalso. remember EmptyString as e eqn:He. induction H.
  - destruct saved as [s|]; cbn in He; [|discriminate].
    destruct (String.eqb_spec s EmptyString); [discriminate | congruence].
  - unfold toggleTheme in He. destruct (String.eqb t "dark"); discriminate.
  - discriminate.
  - discriminate.
Qed.


(** X11. The RiskTable's summary counts never exceed the number of results
    shown: critical plus high, and the flagged-suspicious count. *)
Theorem riskTable_counts_bounded (results : list result_row) :
  (criticalCount results + highCount results <= List.length results)%nat /\
  (suspiciousCount results <= List.length results)%nat.
Proof.
  unfold criticalCount, highCount, suspiciousCount. split; [|apply length_filter_le].
  rewrite Nat.add_comm.
  rewrite <- (length_filter_orb (fun r => is_str "high" (row_risk_level r))
                                (fun r => is_str "critical" (row_risk_level r)));
    [apply length_filter_le | apply high_critical_exclusive].
Qed.

(** X12. The explanation cell shows the first [min n (length s)]
    characters of the explanation followed by ['...'], the ellipsis
    included when nothing was cut; a missing explanation shows just
    ['...']. *)
Theorem explanation_text_shape (n : nat) (s : string) :
  (exists t u, explanation_text n (Str s) = Some (t ++ "...") /\ s = t ++ u /\
               String.length t = Nat.min n (String.length s)) /\
  ((String.length s <= n)%nat -> explanation_text n (Str s) = Some (s ++ "...")) /\
  explanation_text n Null = Some "..." /\ explanation_text n Undefined = Some "...".
Proof.
  split; [|split; [|split; reflexivity]].
  - destruct (substring0_prefix n s) as [u [Hu Hl]].
    exists (String.substring 0 n s), u. auto.
  - intros H. cbn. rewrite substring0_short by exact H. reflexivity.
Qed.

(** X13. A fetching hook's request always ends with [loading] false; on
    success the data is replaced and [error] is [null]; on failure [error]
    is truthy (the server's [detail] or the hook's message) and the
    previously fetched data stays in place. *)
Theorem fetch_settles {A : Type} (msg : string) (s : fetch_state A) (r : response A) :
  msg <> EmptyString ->
  loading (fetch msg s r) = false /\
  match r with
  | Ok a => data (fetch msg s r) = a /\ error (fetch msg s r) = Null
  | Failed _ => data (fetch msg s r) = data s /\ truthy (error (fetch msg s r)) = true
  end.
Proof.
  intros Hmsg. destruct r as [a|d]; cbn.
  - auto.
  - split; [reflexivity|]. split; [reflexivity|]. apply error_message_truthy, Hmsg.
Qed.

(** X14. useMeterTimeSeries requests the series exactly when [meterId] is
    truthy.  Without one it only sets [data] to [null]: [loading] and a
    stale [error] are left as they were; with one, [loading] ends false. *)
Theorem fetchData_guard (meterId : jsval) (server : jsval -> response meter_series)
    (s : fetch_state (option meter_series)) :
  snd (fetchData meterId server s) = (if truthy meterId then [meterId] else []) /\
  (truthy meterId = false ->
     data (fst (fetchData meterId server s)) = None /\
     loading (fst (fetchData meterId server s)) = loading s /\
     error (fst (fetchData meterId server s)) = error s) /\
  (truthy meterId = true -> loading (fst (fetchData meterId server s)) = false).
Proof.
  unfold fetchData. destruct (truthy meterId); cbn.
  - split; [reflexivity|]. split; [discriminate|].
    intros _. destruct (server meterId); reflexivity.
  - split; [reflexivity|]. split; [auto | discriminate].
Qed.

(** X15. Analytics numbers the chart points [0 .. n-1], one per reading
    (the "Total Readings" figure is the number of readings), and the
    highlighted anomaly points are exactly the readings with a truthy
    [is_anomaly], in order. *)
Theorem chartData_indices (rs : list reading_json) :
  List.length (chartData (Some {| readings := Some rs |})) = List.length rs /\
  map cp_index (chartData (Some {| readings := Some rs |})) = seq 0 (List.length rs) /\
  map cp_index (anomalyPoints (chartData (Some {| readings := Some rs |}))) =
    filter (fun i => match nth_error rs i with
                     | Some r => truthy (rd_is_anomaly r)
                     | None => false
                     end) (seq 0 (List.length rs)).
Proof.
  cbn [chartData readings]. split; [apply chart_points_length|]. split.
  - generalize 0%nat. induction rs as [|r rs IH]; intros k; cbn; [reflexivity|].
    rewrite IH. reflexivity.
  - rewrite chart_points_anomaly_indices. apply filter_ext. intros i.
    rewrite Nat.sub_0_r. reflexivity.
Qed.

(** X16. On its first render Analytics ([selectedMeter = '']) sends no
    time-series request, is not loading, and draws an empty chart with no
    anomaly points, whatever the server would answer. *)
Theorem analytics_initial_empty (server : jsval -> response meter_series) :
  snd (analytics_initial server) = [] /\
  loading (fst (analytics_initial server)) = false /\
  error (fst (analytics_initial server)) = Null /\
  chartData (data (fst (analytics_initial server))) = [] /\
  anomalyPoints (chartData (data (fst (analytics_initial server)))) = [].
Proof.
  repeat split.
Qed.


(** X18. After [upload], whatever the response, [loading] is false and the
    progress shown is in [[0, 100]], provided every progress event has
    [0 <= loaded <= total]: it restarts at 0 and each event sets it. *)
Theorem upload_progress_in_range (s : upload_state) (events : list (Q * option Q))
    (r : response jsval) :
  Forall (fun ev => 0 <= fst ev /\ forall t, snd ev = Some t -> fst ev <= t) events ->
  (0 <= up_progress (fst (upload s events r)) <= 100)%Z /\
  up_loading (fst (upload s events r)) = false.
Proof.
  intros Hev.
  assert (Hr : (0 <= up_progress (fold_left on_progress_event events
                 {| up_loading := true; up_progress := 0; up_error := Null;
                    up_result := up_result s |}) <= 100)%Z)
    by (apply fold_on_progress_range; [exact Hev | cbn; lia]).
  unfold upload. destruct r; cbn; auto.
Qed.

(** X19. [upload] settles as it reports: on success it returns the data,
    stores it as [result] and leaves [error] null; on failure it throws the
    same truthy message it stores in [error] and keeps the previous
    [result]. *)
Theorem upload_outcome (s : upload_state) (events : list (Q * option Q)) (r : response jsval) :
  up_loading (fst (upload s events r)) = false /\
  match r with
  | Ok d => snd (upload s events r) = inl d /\ up_result (fst (upload s events r)) = d /\
            up_error (fst (upload s events r)) = Null
  | Failed _ => exists msg, snd (upload s events r) = inr msg /\
                up_error (fst (upload s events r)) = msg /\ truthy msg = true /\
                up_result (fst (upload s events r)) = up_result s
  end.
Proof.
  destruct (fold_on_progress_fields events
              {| up_loading := true; up_progress := 0; up_error := Null;
                 up_result := up_result s |}) as (_ & He & Hres).
  unfold upload. destruct r as [d|detail]; cbn.
  - split; [reflexivity|]. split; [reflexivity|]. split; [reflexivity|]. exact He.
  - split; [reflexivity|]. exists (error_message detail "Upload failed").
    split; [reflexivity|]. split; [reflexivity|]. split; [|exact Hres].
    apply error_message_truthy. discriminate.
Qed.

(** X20. useAnomalyDetection's [runDetection] posts [runDetection_body
    options] and settles like [upload]: success returns and stores the
    data with [error] null; failure throws the truthy message it stores in
    [error], keeping the previous [result]; [loading] ends false. *)
Theorem runDetection_outcome (server : detect_body -> response jsval)
    (s : detection_state) (options : detect_options) :
  det_loading (fst (runDetection server s options)) = false /\
  match server (runDetection_body options) with
  | Ok d => snd (runDetection server s options) = inl d /\
            det_result (fst (runDetection server s options)) = d /\
            det_error (fst (runDetection server s options)) = Null
  | Failed _ => exists msg, snd (runDetection server s options) = inr msg /\
                det_error (fst (runDetection server s options)) = msg /\ truthy msg = true /\
                det_result (fst (runDetection server s options)) = det_result s
  end.
Proof.
  unfold runDetection. destruct (server (runDetection_body options)) as [d|detail]; cbn.
  - auto.
  - split; [reflexivity|]. exists (error_message detail "Detection failed").
    split; [reflexivity|]. split; [reflexivity|]. split; [|reflexivity].
    apply error_message_truthy. discriminate.
Qed.

(** X21. The detection request always names a model: a falsy
    [options.model] becomes ['isolation_forest']; the RiskTable (after any
    use of its model select) and the Upload page only send model names the
    engine's model selection accepts. *)
Theorem detect_request_models (changes : list model_option) (options : detect_options) :
  truthy (body_model (runDetection_body options)) = true /\
  (truthy (opt_model options) = false ->
     body_model (runDetection_body options) = Str "isolation_forest") /\
  (exists m, body_model (runDetection_body (riskTable_detect_options changes)) = Str m /\
             Engine.resolve_model m <> None) /\
  (exists m, body_model (runDetection_body upload_detect_options) = Str m /\
             Engine.resolve_model m <> None).
Proof.
  split; [|split; [|split]].
  - cbn. unfold or_else. destruct (truthy (opt_model options)) eqn:E; [exact E | reflexivity].
  - intros H. cbn. unfold or_else. rewrite H. reflexivity.
  - exists (selectedModel changes). split.
    + cbn. unfold or_else. cbn.
      destruct (selectedModel_known changes) as [-> | ->]; reflexivity.
    + destruct (selectedModel_known changes) as [-> | ->]; discriminate.
  - exists "isolation_forest". split; [reflexivity | discriminate].
Qed.

(** X22. The Upload page takes a selected file exactly when its name ends
    in [.csv] (case-sensitive): it becomes the selected file and the
    upload state is reset (no progress, error or result); any other file,
    or none, leaves the page as it was.  A drop, with a file or without
    one, always clears the drag-over highlight. *)
Theorem handleFileSelect_csv_only (name : string) (p : upload_page) :
  ((exists pre, name = pre ++ ".csv") ->
     selectedFile (handleFileSelect (Some name) p) = Some name /\
     uploader (handleFileSelect (Some name) p) = initial_upload) /\
  ((forall pre, name <> pre ++ ".csv") -> handleFileSelect (Some name) p = p) /\
  handleFileSelect None p = p /\
  forall file, dragOver (handleDrop file p) = false.
Proof.
  split; [|split; [|split]].
  - intros H. apply ends_with_iff in H. cbn. rewrite H. auto.
  - intros H. cbn. destruct (ends_with ".csv" name) eqn:E; [|reflexivity].
    apply ends_with_iff in E as [pre Hpre]. exfalso. exact (H pre Hpre).
  - reflexivity.
  - intros [f|]; [|reflexivity].
    unfold handleDrop, handleFileSelect. destruct (ends_with ".csv" f); reflexivity.
Qed.

Lemma sort_compare_nullish_last_witness :
  sort_compare Desc Null (Num 3) = CmpConst 1%Z /\
  sort_compare Desc (Num 3) Null = (if nullish (Num 3) then CmpConst 1%Z else CmpConst (-1)%Z).
Proof. apply (sort_compare_nullish_last Desc Null (Num 3)). reflexivity. Defined.

Lemma sort_compare_desc_swaps_witness :
  sort_compare Desc (Str "M-7") (Num 2) = sort_compare Asc (Num 2) (Str "M-7").
Proof. apply (sort_compare_desc_swaps (Str "M-7") (Num 2)); reflexivity. Defined.

Lemma renderCell_plain_column_witness :
  (forall q, FrontendSamples.sample_row (col_key FrontendSamples.sample_column) = Num q ->
     renderCell FrontendSamples.sample_row FrontendSamples.sample_column
     = FixedText q (or_else (col_decimals FrontendSamples.sample_column) (Num 2))) /\
  (truthy (col_decimals FrontendSamples.sample_column) = true ->
     forall q, FrontendSamples.sample_row (col_key FrontendSamples.sample_column) = Num q ->
       renderCell FrontendSamples.sample_row FrontendSamples.sample_column
       = FixedText q (col_decimals FrontendSamples.sample_column)) /\
  (truthy (col_decimals FrontendSamples.sample_column) = false ->
     forall q, FrontendSamples.sample_row (col_key FrontendSamples.sample_column) = Num q ->
       renderCell FrontendSamples.sample_row FrontendSamples.sample_column = FixedText q (Num 2)) /\
  (renderCell FrontendSamples.sample_row FrontendSamples.sample_column = Plain (Str "-") <->
     nullish (FrontendSamples.sample_row (col_key FrontendSamples.sample_column)) = true \/
     FrontendSamples.sample_row (col_key FrontendSamples.sample_column) = Str "-").
Proof. apply renderCell_plain_column; reflexivity. Defined.

Lemma score_color_monotone_witness :
  (color_rank (score_color (1 # 2)) <= color_rank (score_color (4 # 5)))%nat.
Proof. apply (score_color_monotone (1 # 2) (4 # 5)). apply Qle_bool_iff. reflexivity. Defined.

Lemma theme_reload_restores_witness : initial_theme (Some "light") = "light".
Proof. apply (theme_reload_restores None "light"). exact (th_toggle None _ (th_init None)). Defined.

Lemma fetch_settles_witness :
  loading (fetchResults initial_results (Failed Undefined)) = false /\
  data (fetchResults initial_results (Failed Undefined)) = data initial_results /\
  truthy (error (fetchResults initial_results (Failed Undefined))) = true.
Proof.
  apply (fetch_settles (A := list result_row) "Failed to fetch results" initial_results
           (Failed Undefined)).
  discriminate.
Defined.


Lemma upload_progress_in_range_witness :
  (0 <= up_progress (fst (upload initial_upload FrontendSamples.sample_events (Ok Null))) <= 100)%Z /\
  up_loading (fst (upload initial_upload FrontendSamples.sample_events (Ok Null))) = false.
Proof.
  apply (upload_progress_in_range initial_upload FrontendSamples.sample_events (Ok Null)).
  repeat constructor; cbn; try (apply Qle_bool_iff; reflexivity);
    intros t Ht; try discriminate Ht; injection Ht as <-; apply Qle_bool_iff; reflexivity.
Defined.

End FrontendProofs.
